(** * Gantry operation software: PLC polling service and tag codec

    A shallow embedding of

    - [PlcService] (backend, [plc.service.ts]): the data-point registry
      front, the per-key polling timers, the poll executor, the write
      path, the polling metrics and the region-code resolution;
    - the [int32] branch of [renderTagValue] (frontend,
      [DataSetCachePage.tsx]).

    Conventions.  JavaScript numbers that hold integers are [Z]; strings
    are [string] (ASCII); [Map<string, _>] and the two database tables are
    [gmap string _]; [undefined]/[null] is [None].  Every [async] method is
    one atomic transition of the world: the interleavings that the
    [await] points would allow are not part of the model.  Log output is
    dropped. *)

From Stdlib Require Import ZArith Lia.
From stdpp Require Import base option list gmap strings pretty.

Local Open Scope Z_scope.

(** ** Value codec: 32-bit tags (frontend) *)

Module Codec.

(** ECMAScript [ToInt32]: reduce modulo 2^32 into the signed range. *)
Definition ToInt32 (z : Z) : Z := (z + 2147483648) mod 4294967296 - 2147483648.

(** [a << n] on JavaScript numbers: the shift count is taken modulo 32
    and the result is a signed 32-bit integer. *)
Definition js_shl (a n : Z) : Z := ToInt32 (Z.shiftl (ToInt32 a) (Z.land n 31)).

(** [a | b] on JavaScript numbers. *)
Definition js_or (a b : Z) : Z := ToInt32 (Z.lor (ToInt32 a) (ToInt32 b)).

(** [const safe = (idx) => (idx >= 0 && idx < dsValues.length ?
    dsValues[idx] : undefined)]. *)
Definition safe (dsValues : list Z) (idx : Z) : option Z :=
  if (0 <=? idx) && (idx <? Z.of_nat (length dsValues))
  then dsValues !! Z.to_nat idx
  else None.

(** The [case "int32"] branch of [renderTagValue]; [None] stands for
    the ["N/A"] marker. *)
Definition renderTagValue_int32 (offset : Z) (dsValues : list Z) : option Z :=
  match safe dsValues offset, safe dsValues (offset + 1) with
  | Some lo, Some hi =>
      let val := js_or (js_shl hi 16) lo in
      Some (if 2147483647 <? val then val - 4294967296 else val)
  | _, _ => None
  end.

(** Modelled from the spec: the int32 encoder of the tag write path
    (backend; its source is not available).  The spec makes it the
    inverse of the decoder, "two consecutive words [lo, hi] ... word
    order is low-word-first": the low 16 bits, then the next 16 bits
    of the two's complement representation. *)
Definition encodeInt32 (v : Z) : list Z :=
  [Z.land v 65535; Z.land (Z.shiftr v 16) 65535].

End Codec.

(** ** Backend data model *)

(** [type PlcValue = number[] | string | boolean]. *)
Inductive PlcValue :=
| VNumbers (words : list Z)
| VString (text : string)
| VBool (flag : bool).

(** The [DataPoint] entity, with the columns that [registerDataPoint]
    fills in. *)
Module DataPoint.
Record t := mk {
  key : string;
  description : string;
  addressType : string;
  address : Z;
  length : Z;
  bit : option Z;
  type : string;
  pollingInterval : Z
}.
End DataPoint.

(** [RegisterDataPointDto]: the request body of a registration;
    [pollingInterval] may be left out. *)
Module RegisterDataPointDto.
Record t := mk {
  key : string;
  description : string;
  addressType : string;
  address : Z;
  length : Z;
  bit : option Z;
  type : string;
  pollingInterval : option Z
}.
End RegisterDataPointDto.

(** The [PlcCache] entity: one row per key. *)
Module PlcCache.
Record t := mk {
  key : string;
  value : PlcValue;
  timestamp : Z;
  error : option string
}.
End PlcCache.

(** ** Exceptions and results *)

Inductive Exn :=
| BadRequestException (msg : string)
| Error (msg : string).

(** [(error as Error).message]. *)
Definition message (e : Exn) : string :=
  match e with
  | BadRequestException msg => msg
  | Error msg => msg
  end.

Inductive Result (A : Type) :=
| Ok (a : A)
| Throw (e : Exn).
Arguments Ok {A} a.
Arguments Throw {A} e.

(** ** The device link *)

Module DeviceCode.
Inductive t := D | R | M | X | Y.
End DeviceCode.

(** [PlcCommunicationService] is an injected collaborator: its calls run
    against a link state of some type and may fail.  [truthy] is the
    JavaScript truth value of each member of the [DeviceCode] enum, whose
    numbering belongs to the same collaborator. *)
Class PlcCommunication (Link : Type) := {
  connect : Link -> Link * Result unit;
  isConnectionActive : Link -> bool;
  readNumbers : DeviceCode.t -> Z -> Z -> Link -> Link * Result (list Z);
  readString : DeviceCode.t -> Z -> string -> Z -> Link -> Link * Result string;
  readBit : DeviceCode.t -> Z -> Z -> Link -> Link * Result bool;
  writeNumbers : DeviceCode.t -> Z -> list Z -> Link -> Link * Result unit;
  writeString : DeviceCode.t -> Z -> string -> string -> Link -> Link * Result unit;
  writeBit : DeviceCode.t -> Z -> Z -> bool -> Link -> Link * Result unit;
  truthy : DeviceCode.t -> bool
}.

(** The registry store may refuse to create or to delete a row (a
    duplicate key, a missing key, ...); which requests it refuses is
    left open. *)
Record RegistryPolicy := {
  create_refused : DataPoint.t -> gmap string DataPoint.t -> option Exn;
  delete_refused : string -> gmap string DataPoint.t -> option Exn
}.

(** ** The world: service fields, stores, timers of the runtime, clock *)

Record World (Link : Type) := mkWorld {
  (* fields of PlcService *)
  pollingTimers : gmap string nat;
  isPollingActive : bool;
  readCount : Z;
  pollingStartTime : option Z;
  (* the injected link *)
  communication : Link;
  (* the two tables behind PlcDbService *)
  data_point : gmap string DataPoint.t;
  plc_cache : gmap string PlcCache.t;
  (* the runtime: live intervals with the data point their callback
     captured, the next handle, the wall clock in milliseconds *)
  intervals : gmap nat DataPoint.t;
  nextTimer : nat;
  now : Z
}.
Arguments mkWorld {Link}.
Arguments pollingTimers {Link}.
Arguments isPollingActive {Link}.
Arguments readCount {Link}.
Arguments pollingStartTime {Link}.
Arguments communication {Link}.
Arguments data_point {Link}.
Arguments plc_cache {Link}.
Arguments intervals {Link}.
Arguments nextTimer {Link}.
Arguments now {Link}.

Section Setters.
Context {Link : Type}.
Implicit Type w : World Link.

Definition set_pollingTimers (v : gmap string nat) w :=
  mkWorld v (isPollingActive w) (readCount w) (pollingStartTime w) (communication w)
          (data_point w) (plc_cache w) (intervals w) (nextTimer w) (now w).
Definition set_isPollingActive (v : bool) w :=
  mkWorld (pollingTimers w) v (readCount w) (pollingStartTime w) (communication w)
          (data_point w) (plc_cache w) (intervals w) (nextTimer w) (now w).
Definition set_readCount (v : Z) w :=
  mkWorld (pollingTimers w) (isPollingActive w) v (pollingStartTime w) (communication w)
          (data_point w) (plc_cache w) (intervals w) (nextTimer w) (now w).
Definition set_pollingStartTime (v : option Z) w :=
  mkWorld (pollingTimers w) (isPollingActive w) (readCount w) v (communication w)
          (data_point w) (plc_cache w) (intervals w) (nextTimer w) (now w).
Definition set_communication (v : Link) w :=
  mkWorld (pollingTimers w) (isPollingActive w) (readCount w) (pollingStartTime w) v
          (data_point w) (plc_cache w) (intervals w) (nextTimer w) (now w).
Definition set_data_point (v : gmap string DataPoint.t) w :=
  mkWorld (pollingTimers w) (isPollingActive w) (readCount w) (pollingStartTime w)
          (communication w) v (plc_cache w) (intervals w) (nextTimer w) (now w).
Definition set_plc_cache (v : gmap string PlcCache.t) w :=
  mkWorld (pollingTimers w) (isPollingActive w) (readCount w) (pollingStartTime w)
          (communication w) (data_point w) v (intervals w) (nextTimer w) (now w).
Definition set_intervals (v : gmap nat DataPoint.t) w :=
  mkWorld (pollingTimers w) (isPollingActive w) (readCount w) (pollingStartTime w)
          (communication w) (data_point w) (plc_cache w) v (nextTimer w) (now w).
Definition set_nextTimer (v : nat) w :=
  mkWorld (pollingTimers w) (isPollingActive w) (readCount w) (pollingStartTime w)
          (communication w) (data_point w) (plc_cache w) (intervals w) v (now w).
Definition set_now (v : Z) w :=
  mkWorld (pollingTimers w) (isPollingActive w) (readCount w) (pollingStartTime w)
          (communication w) (data_point w) (plc_cache w) (intervals w) (nextTimer w) v.
End Setters.

(** ** A monad for code that reads and writes the world and may throw *)

Definition M (S A : Type) : Type := S -> S * Result A.

Section Monad.
Context {S : Type}.

Definition ret {A} (a : A) : M S A := fun s => (s, Ok a).
Definition throw {A} (e : Exn) : M S A := fun s => (s, Throw e).
Definition bind {A B} (m : M S A) (f : A -> M S B) : M S B :=
  fun s => match m s with
           | (s', Ok a) => f a s'
           | (s', Throw e) => (s', Throw e)
           end.
(** [try { m } catch (error) { h error }]: what [m] did before it
    threw stays done. *)
Definition try_catch {A} (m : M S A) (h : Exn -> M S A) : M S A :=
  fun s => match m s with
           | (s', Ok a) => (s', Ok a)
           | (s', Throw e) => h e s'
           end.
Definition gets {A} (f : S -> A) : M S A := fun s => (s, Ok (f s)).
Definition modify (f : S -> S) : M S unit := fun s => (f s, Ok tt).
Definition liftResult {A} (r : Result A) : M S A := fun s => (s, r).

(** [for (const x of xs) { body(x) }]. *)
Fixpoint forEach {A} (xs : list A) (body : A -> M S unit) : M S unit :=
  match xs with
  | [] => ret tt
  | x :: rest => bind (body x) (fun _ => forEach rest body)
  end.
End Monad.

Notation "'let!' x ':=' m 'in' f" := (bind m (fun x => f))
  (at level 10, x name, m at level 100, f at level 200).
Notation "m ';;;' f" := (bind m (fun _ => f))
  (at level 100, f at level 200, right associativity).

(** ** Strings *)

(** [String.prototype.toUpperCase] on ASCII text: [a]..[z] go to
    [A]..[Z], every other character stays. *)
Definition upper_ascii (c : Ascii.ascii) : Ascii.ascii :=
  let n := Ascii.nat_of_ascii c in
  if ((97 <=? n) && (n <=? 122))%nat then Ascii.ascii_of_nat (n - 32) else c.

Fixpoint toUpperCase (s : string) : string :=
  match s with
  | EmptyString => EmptyString
  | String c rest => String (upper_ascii c) (toUpperCase rest)
  end.

(** ** PlcService *)

Record PollingMetrics := {
  metrics_readCount : Z;
  readsPerSecond : Z;
  elapsedSeconds : Z
}.

Section Service.
Context {Link : Type} `{!PlcCommunication Link}.
Variable policy : RegistryPolicy.

Local Abbreviation W := (World Link).
Local Abbreviation Svc := (M (World Link)).

(** *** Collaborators as actions on the world *)

(** A call on [this.communication]. *)
Definition comm {A} (call : Link -> Link * Result A) : Svc A :=
  fun w => let '(l, r) := call (communication w) in (set_communication l w, r).

(** [new Date()]. *)
Definition newDate : Svc Z := gets now.

(** The registry store and the cache store sit behind [PlcDbService],
    whose source is not available; the six calls the service makes on
    it follow the spec's interface of the two stores. *)

(** Modelled from the spec: [db.createDataPoint], the registry store's
    [create(definition)], "ordinary key-addressed persistence"; it hands
    back the stored row, and it may refuse (the spec asks it to reject
    a duplicate key). *)
Definition createDataPoint (dataPoint : DataPoint.t) : Svc DataPoint.t :=
  fun w =>
    match create_refused policy dataPoint (data_point w) with
    | Some e => (w, Throw e)
    | None =>
        (set_data_point (<[DataPoint.key dataPoint := dataPoint]> (data_point w)) w,
         Ok dataPoint)
    end.

(** Modelled from the spec: [db.deleteDataPoint], the registry store's
    [delete(key)]; it removes the definition and nothing else, and it
    may refuse. *)
Definition deleteDataPoint (key : string) : Svc unit :=
  fun w =>
    match delete_refused policy key (data_point w) with
    | Some e => (w, Throw e)
    | None => (set_data_point (delete key (data_point w)) w, Ok tt)
    end.

(** Modelled from the spec: [db.findAllDataPoints], the registry
    store's [findAll()]. *)
Definition findAllDataPoints : Svc (list DataPoint.t) :=
  gets (fun w => (map_to_list (data_point w)).*2).

(** Modelled from the spec: [db.findDataPoint], the registry store's
    [findOne(key)]. *)
Definition findDataPoint (key : string) : Svc (option DataPoint.t) :=
  gets (fun w => data_point w !! key).

(** Modelled from the spec: [db.saveCache], the cache store's
    [upsert(entry)], "latest-value-wins persistence keyed by key". *)
Definition saveCache (row : PlcCache.t) : Svc unit :=
  modify (fun w => set_plc_cache (<[PlcCache.key row := row]> (plc_cache w)) w).

(** Modelled from the spec: [db.findCache], the cache store's
    [findOne(key)]. *)
Definition findCache (key : string) : Svc (option PlcCache.t) :=
  gets (fun w => plc_cache w !! key).

(** [setInterval(callback, ms)]: a fresh handle (a [Timeout] object,
    never falsy); the callback polls the data point it captured.  When
    a live interval fires is left to the environment, so the period is
    not recorded. *)
Definition setInterval (dataPoint : DataPoint.t) : Svc nat :=
  fun w =>
    let h := nextTimer w in
    (set_nextTimer (S h) (set_intervals (<[h := dataPoint]> (intervals w)) w), Ok h).

Definition clearInterval (timer : nat) : Svc unit :=
  modify (fun w => set_intervals (delete timer (intervals w)) w).

(** [promise.catch((err) => this.logger.error(...))]. *)
Definition catch_and_log (m : Svc unit) : Svc unit :=
  try_catch m (fun _ => ret tt).

(** *** Utilities *)

(** No inherited property of the object literal is reachable here:
    every property name of [Object.prototype] contains a lower-case
    letter and the lookup key has been upper-cased. *)
Definition getDeviceCode (addressType : string) : Result DeviceCode.t :=
  let map : gmap string DeviceCode.t :=
    {[ "D" := DeviceCode.D; "R" := DeviceCode.R; "M" := DeviceCode.M;
       "X" := DeviceCode.X; "Y" := DeviceCode.Y ]} in
  match map !! toUpperCase addressType with
  | Some code =>
      if truthy code then Ok code
      else Throw (BadRequestException ("Invalid address type: " +:+ addressType))
  | None => Throw (BadRequestException ("Invalid address type: " +:+ addressType))
  end.

Definition getEmptyValueForType (type : string) : PlcValue :=
  if decide (type = "number") then VNumbers []
  else if decide (type = "bool") then VBool false
  else VString "".

(** *** Poll executor *)

(** The [try] block of [pollDataPoint]. *)
Definition pollDataPoint_try (dataPoint : DataPoint.t) : Svc unit :=
  let! deviceCode := liftResult (getDeviceCode (DataPoint.addressType dataPoint)) in
  let! value :=
    (if decide (DataPoint.type dataPoint = "number") then
       let! v := comm (readNumbers deviceCode (DataPoint.address dataPoint)
                                   (DataPoint.length dataPoint)) in
       ret (VNumbers v)
     else if decide (DataPoint.type dataPoint = "string") then
       let! v := comm (readString deviceCode (DataPoint.address dataPoint) "ascii"
                                  (DataPoint.length dataPoint)) in
       ret (VString v)
     else if decide (DataPoint.type dataPoint = "bool") then
       match DataPoint.bit dataPoint with
       | None =>
           throw (BadRequestException
                    ("Bit position required for " +:+ DataPoint.key dataPoint))
       | Some bit =>
           let! v := comm (readBit deviceCode (DataPoint.address dataPoint) bit) in
           ret (VBool v)
       end
     else
       throw (BadRequestException ("Unknown type: " +:+ DataPoint.type dataPoint))) in
  modify (fun w => set_readCount (readCount w + 1) w) ;;;
  let! timestamp := newDate in
  saveCache {| PlcCache.key := DataPoint.key dataPoint;
               PlcCache.value := value;
               PlcCache.timestamp := timestamp;
               PlcCache.error := None |}.

(** The [catch] block of [pollDataPoint]. *)
Definition pollDataPoint_catch (dataPoint : DataPoint.t) (error : Exn) : Svc unit :=
  let! timestamp := newDate in
  saveCache {| PlcCache.key := DataPoint.key dataPoint;
               PlcCache.value := getEmptyValueForType (DataPoint.type dataPoint);
               PlcCache.timestamp := timestamp;
               PlcCache.error := Some (message error) |}.

Definition pollDataPoint (dataPoint : DataPoint.t) : Svc unit :=
  try_catch (pollDataPoint_try dataPoint) (pollDataPoint_catch dataPoint).

(** *** Polling control *)

Definition stopPollingForDataPoint (key : string) : Svc unit :=
  let! timer := gets (fun w => pollingTimers w !! key) in
  match timer with
  | Some timer =>
      clearInterval timer ;;;
      modify (fun w => set_pollingTimers (delete key (pollingTimers w)) w)
  | None => ret tt
  end.

Definition startPollingForDataPoint (dataPoint : DataPoint.t) : Svc unit :=
  stopPollingForDataPoint (DataPoint.key dataPoint) ;;;
  let! timer := setInterval dataPoint in
  modify (fun w => set_pollingTimers
                     (<[DataPoint.key dataPoint := timer]> (pollingTimers w)) w) ;;;
  catch_and_log (pollDataPoint dataPoint).

Definition startPolling : Svc unit :=
  let! active := gets isPollingActive in
  if active then ret tt
  else
    let! connected := gets (fun w => isConnectionActive (communication w)) in
    (if negb connected then comm connect else ret tt) ;;;
    modify (set_isPollingActive true) ;;;
    modify (set_readCount 0) ;;;
    let! t := newDate in
    modify (set_pollingStartTime (Some t)) ;;;
    let! dataPoints := findAllDataPoints in
    forEach dataPoints startPollingForDataPoint.

Definition stopPolling : Svc unit :=
  let! active := gets isPollingActive in
  if negb active then ret tt
  else
    modify (set_isPollingActive false) ;;;
    modify (set_readCount 0) ;;;
    modify (set_pollingStartTime None) ;;;
    modify (fun w => set_intervals
                       (map_fold (fun _ timer live => delete timer live)
                                 (intervals w) (pollingTimers w)) w) ;;;
    modify (set_pollingTimers ∅).

Definition isPolling : Svc bool := gets isPollingActive.

(** *** Data point management *)

(** The entity that [registerDataPoint] builds from the request before
    it saves it: every field is copied, [pollingInterval] is
    [dto.pollingInterval ?? 1000]. *)
Definition newDataPoint (dto : RegisterDataPointDto.t) : DataPoint.t :=
  {| DataPoint.key := RegisterDataPointDto.key dto;
     DataPoint.description := RegisterDataPointDto.description dto;
     DataPoint.addressType := RegisterDataPointDto.addressType dto;
     DataPoint.address := RegisterDataPointDto.address dto;
     DataPoint.length := RegisterDataPointDto.length dto;
     DataPoint.bit := RegisterDataPointDto.bit dto;
     DataPoint.type := RegisterDataPointDto.type dto;
     DataPoint.pollingInterval :=
       default 1000 (RegisterDataPointDto.pollingInterval dto) |}.

Definition registerDataPoint (dto : RegisterDataPointDto.t) : Svc DataPoint.t :=
  let dataPoint := newDataPoint dto in
  let! saved := createDataPoint dataPoint in
  let! active := gets isPollingActive in
  (if active then startPollingForDataPoint saved else ret tt) ;;;
  ret saved.

Definition unregisterDataPoint (key : string) : Svc unit :=
  stopPollingForDataPoint key ;;;
  deleteDataPoint key.

(** *** Reading and writing *)

Definition getCacheItem (key : string) : Svc (option PlcCache.t) := findCache key.

Definition writeData (key : string) (value : PlcValue) : Svc unit :=
  let! dataPoint := findDataPoint key in
  match dataPoint with
  | None => throw (BadRequestException ("Data point not found: " +:+ key))
  | Some dataPoint =>
      let type := DataPoint.type dataPoint in
      let address := DataPoint.address dataPoint in
      let bit := DataPoint.bit dataPoint in
      let! deviceCode := liftResult (getDeviceCode (DataPoint.addressType dataPoint)) in
      (if decide (type = "number") then
         match value with
         | VNumbers words => comm (writeNumbers deviceCode address words)
         | _ => throw (BadRequestException ("Value must be number array for " +:+ key))
         end
       else if decide (type = "string") then
         match value with
         | VString text => comm (writeString deviceCode address text "ascii")
         | _ => throw (BadRequestException ("Value must be string for " +:+ key))
         end
       else if decide (type = "bool") then
         match value with
         | VBool flag =>
             match bit with
             | None => throw (BadRequestException ("Bit position required for " +:+ key))
             | Some bit => comm (writeBit deviceCode address bit flag)
             end
         | _ => throw (BadRequestException ("Value must be boolean for " +:+ key))
         end
       else throw (BadRequestException ("Unknown data point type: " +:+ type))) ;;;
      let! timestamp := newDate in
      saveCache {| PlcCache.key := key;
                   PlcCache.value := value;
                   PlcCache.timestamp := timestamp;
                   PlcCache.error := None |}
  end.

(** *** Metrics *)

Definition getPollingMetrics (w : W) : PollingMetrics :=
  match isPollingActive w, pollingStartTime w with
  | true, Some startTime =>
      let elapsedMs := now w - startTime in
      let elapsedSeconds := elapsedMs / 1000 in
      let readsPerSecond :=
        if 0 <? elapsedSeconds then readCount w / elapsedSeconds else 0 in
      {| metrics_readCount := readCount w;
         readsPerSecond := readsPerSecond;
         elapsedSeconds := elapsedSeconds |}
  | _, _ => {| metrics_readCount := 0; readsPerSecond := 0; elapsedSeconds := 0 |}
  end.

(** *** The service as a transition system *)

(** What can happen to a running service: a request of the controller,
    a timer of the runtime firing, time passing, the link changing
    under the service. *)
Inductive Event :=
| EvRegister (dto : RegisterDataPointDto.t)
| EvUnregister (key : string)
| EvStartPolling
| EvStopPolling
| EvWriteData (key : string) (value : PlcValue)
| EvTimer (timer : nat)
| EvElapse (ms : Z)
| EvLink (link : Link).

(** The callback given to [setInterval]; a cleared handle never
    fires. *)
Definition fire (timer : nat) : Svc unit :=
  let! callback := gets (fun w => intervals w !! timer) in
  match callback with
  | Some dataPoint => catch_and_log (pollDataPoint dataPoint)
  | None => ret tt
  end.

Definition step (w : W) (ev : Event) : W :=
  match ev with
  | EvRegister dto => (registerDataPoint dto w).1
  | EvUnregister key => (unregisterDataPoint key w).1
  | EvStartPolling => (startPolling w).1
  | EvStopPolling => (stopPolling w).1
  | EvWriteData key value => (writeData key value w).1
  | EvTimer timer => (fire timer w).1
  | EvElapse ms => set_now (now w + ms) w
  | EvLink link => set_communication link w
  end.

Definition run (w : W) (evs : list Event) : W := foldl step w evs.

(** Events that are no request: timers firing, time passing, the link
    changing. *)
Definition background (ev : Event) : Prop :=
  match ev with
  | EvTimer _ | EvElapse _ | EvLink _ => True
  | _ => False
  end.

(** The service right after construction: no timer, not polling. *)
Definition boot (link : Link) (registry : gmap string DataPoint.t)
           (cache : gmap string PlcCache.t) (t0 : Z) : W :=
  {| pollingTimers := ∅; isPollingActive := false; readCount := 0;
     pollingStartTime := None; communication := link;
     data_point := registry; plc_cache := cache;
     intervals := ∅; nextTimer := 0; now := t0 |}.

(** *** Properties of states *)

(** The timer map and the live intervals of the runtime describe each
    other, and no handle from [next] on is live. *)
Definition timers_ok (timers : gmap string nat) (live : gmap nat DataPoint.t)
           (next : nat) : Prop :=
  (forall key timer, timers !! key = Some timer ->
     exists dataPoint, live !! timer = Some dataPoint /\ DataPoint.key dataPoint = key)
  /\ (forall timer dataPoint, live !! timer = Some dataPoint ->
        timers !! DataPoint.key dataPoint = Some timer)
  /\ (forall timer dataPoint, live !! timer = Some dataPoint -> (timer < next)%nat).

Definition timers_wf (w : W) : Prop :=
  timers_ok (pollingTimers w) (intervals w) (nextTimer w).

(** At most one live interval polls a given key. *)
Definition one_timer_per_key (w : W) : Prop :=
  forall t1 t2 dp1 dp2,
    intervals w !! t1 = Some dp1 -> intervals w !! t2 = Some dp2 ->
    DataPoint.key dp1 = DataPoint.key dp2 -> t1 = t2.

(** No interval among [live] polls [key]. *)
Definition unpolled (key : string) (live : gmap nat DataPoint.t) : Prop :=
  forall timer dataPoint, live !! timer = Some dataPoint ->
    DataPoint.key dataPoint <> key.

Definition no_timer_for (key : string) (w : W) : Prop := unpolled key (intervals w).

(** [key] is the primary key of the registry: every row sits under its
    own key. *)
Definition registry_ok (registry : gmap string DataPoint.t) : Prop :=
  forall key dataPoint, registry !! key = Some dataPoint -> DataPoint.key dataPoint = key.

(** [key] is neither registered nor polled. *)
Definition retired (key : string) (w : W) : Prop :=
  no_timer_for key w /\ data_point w !! key = None /\ registry_ok (data_point w).

(** Stopped, and nothing left to fire. *)
Definition idle (w : W) : Prop :=
  isPollingActive w = false /\ pollingTimers w = ∅ /\ intervals w = ∅.

(** The event registers [key]. *)
Definition registers (key : string) (ev : Event) : Prop :=
  match ev with
  | EvRegister dto => RegisterDataPointDto.key dto = key
  | _ => False
  end.

End Service.

(** ** A simulated link and registry, to run the model on examples *)

Module Sim.

(** The device answers every read with zeros while the link is up. *)
Record Link := { reachable : bool; connected : bool }.

Definition call {A} (a : A) (l : Link) : Link * Result A :=
  if reachable l && connected l then (l, Ok a)
  else (l, Throw (Error "PLC not connected")).

#[global] Instance simulated : PlcCommunication Link := {|
  connect l :=
    if reachable l then ({| reachable := true; connected := true |}, Ok tt)
    else (l, Throw (Error "connect ECONNREFUSED"));
  isConnectionActive l := connected l;
  readNumbers _ _ len := call (replicate (Z.to_nat len) 0);
  readString _ _ _ _ := call "";
  readBit _ _ _ := call false;
  writeNumbers _ _ _ := call tt;
  writeString _ _ _ _ := call tt;
  writeBit _ _ _ _ := call tt;
  truthy _ := true
|}.

(** A registry that rejects duplicate keys, as the spec asks of it. *)
Definition policy : RegistryPolicy := {|
  create_refused dataPoint registry :=
    match registry !! DataPoint.key dataPoint with
    | Some _ => Some (Error "duplicate key")
    | None => None
    end;
  delete_refused _ _ := None
|}.

Definition online : Link := {| reachable := true; connected := true |}.
Definition offline : Link := {| reachable := false; connected := false |}.

(** The registration of the spec's example: key ["temp"], region [D],
    address 100, two words, every 500 ms. *)
Definition temp : RegisterDataPointDto.t :=
  {| RegisterDataPointDto.key := "temp";
     RegisterDataPointDto.description := "temperature";
     RegisterDataPointDto.addressType := "D";
     RegisterDataPointDto.address := 100;
     RegisterDataPointDto.length := 2;
     RegisterDataPointDto.bit := None;
     RegisterDataPointDto.type := "number";
     RegisterDataPointDto.pollingInterval := Some 500 |}.

(** The same with an interval of 50 ms. *)
Definition fast : RegisterDataPointDto.t :=
  {| RegisterDataPointDto.key := "fast";
     RegisterDataPointDto.description := "fast";
     RegisterDataPointDto.addressType := "D";
     RegisterDataPointDto.address := 0;
     RegisterDataPointDto.length := 1;
     RegisterDataPointDto.bit := None;
     RegisterDataPointDto.type := "number";
     RegisterDataPointDto.pollingInterval := Some 50 |}.

(** A definition in a region that does not exist. *)
Definition bogus : DataPoint.t :=
  {| DataPoint.key := "bogus";
     DataPoint.description := "no such region";
     DataPoint.addressType := "Q";
     DataPoint.address := 0;
     DataPoint.length := 1;
     DataPoint.bit := None;
     DataPoint.type := "number";
     DataPoint.pollingInterval := 1000 |}.

Definition fresh : World Link := boot online ∅ ∅ 0.

(** Registered ["temp"], started polling, 1.5 s later. *)
Definition polling : World Link :=
  run policy fresh [EvRegister temp; EvStartPolling; EvElapse 1500].

(** The same service after the link went down. *)
Definition unplugged : World Link := run policy polling [EvLink offline].

End Sim.

(** ** Tag rendering and editing (frontend, [DataSetCachePage.tsx]) *)

Module Tags.
Import Codec.

(** [a >> n] on JavaScript numbers: sign-propagating, the shift count
    taken modulo 32. *)
Definition js_shr (a n : Z) : Z := Z.shiftr (ToInt32 a) (Z.land n 31).

(** [a & b] on JavaScript numbers. *)
Definition js_and (a b : Z) : Z := ToInt32 (Z.land (ToInt32 a) (ToInt32 b)).

(** The fields of a [Tag] that the page reads; [wordLength] and
    [bitPosition] may be left out. *)
Module Tag.
Record t := mk {
  key : string;
  dataSetId : Z;
  offset : Z;
  dataType : string;
  wordLength : option Z;
  bitPosition : option Z
}.
End Tag.

(** What [renderTagValue] returns: a number, the 32-bit float made of
    two words (kept as the two words), or a text. *)
Inductive Rendered :=
| RNumber (n : Z)
| RReal (lo hi : Z)
| RText (text : string).

#[global] Instance Rendered_eq_dec : EqDecision Rendered.
Proof. solve_decision. Defined.

(** The first loop of the ["string"] branch: up to [count] words from
    [offset + i] on, stopping at the first index outside the block. *)
Fixpoint collectWords (dsValues : list Z) (offset i : Z) (count : nat) : list Z :=
  match count with
  | O => []
  | S rest =>
      match safe dsValues (offset + i) with
      | None => []
      | Some w => w :: collectWords dsValues offset (i + 1) rest
      end
  end.

(** The second loop: low byte then high byte of every word, up to the
    first zero byte. *)
Fixpoint packedBytes (words : list Z) : list Z :=
  match words with
  | [] => []
  | w :: rest =>
      let lo := js_and w 255 in
      let hi := js_and (js_shr w 8) 255 in
      if lo =? 0 then []
      else lo :: (if hi =? 0 then [] else hi :: packedBytes rest)
  end.

(** [new TextDecoder("ascii").decode(new Uint8Array(bytes))]: one
    character per byte; a byte above 127 stands for the character the
    decoder gives it. *)
Definition decodeBytes (bytes : list Z) : string :=
  foldr (fun b text => String (Ascii.ascii_of_N (Z.to_N b)) text) EmptyString bytes.

(** [renderTagValue].  Nothing in its [try] block throws, so the
    ["ERR"] of the [catch] block is never returned. *)
Definition renderTagValue (tag : Tag.t) (dsValues : option (list Z)) : Rendered :=
  match dsValues with
  | None => RText "-"
  | Some dsValues =>
      if Z.of_nat (length dsValues) =? 0 then RText "-"
      else
        let offset := Tag.offset tag in
        let dataType := Tag.dataType tag in
        let wordLength := default 1 (Tag.wordLength tag) in
        let bitPosition := default 0 (Tag.bitPosition tag) in
        if decide (dataType = "int16") then
          match safe dsValues offset with
          | None => RText "N/A"
          | Some w => RNumber (if 32767 <? w then w - 65536 else w)
          end
        else if decide (dataType = "int32") then
          match renderTagValue_int32 offset dsValues with
          | None => RText "N/A"
          | Some val => RNumber val
          end
        else if decide (dataType = "real") then
          match safe dsValues offset, safe dsValues (offset + 1) with
          | Some lo, Some hi => RReal lo hi
          | _, _ => RText "N/A"
          end
        else if decide (dataType = "bool") then
          match safe dsValues offset with
          | None => RText "N/A"
          | Some w =>
              RText (if js_and (js_shr w bitPosition) 1 =? 1 then "ON" else "OFF")
          end
        else if decide (dataType = "string") then
          match collectWords dsValues offset 0 (Z.to_nat wordLength) with
          | [] => RText "N/A"
          | words => RText (decodeBytes (packedBytes words))
          end
        else RText "N/A"
  end.

(** [String.prototype.toLowerCase] on ASCII text. *)
Definition lower_ascii (c : Ascii.ascii) : Ascii.ascii :=
  let n := Ascii.nat_of_ascii c in
  if ((65 <=? n) && (n <=? 90))%nat then Ascii.ascii_of_nat (n + 32) else c.

Fixpoint toLowerCase (s : string) : string :=
  match s with
  | EmptyString => EmptyString
  | String c rest => String (lower_ascii c) (toLowerCase rest)
  end.

Section Editing.
(** The text JavaScript prints for the float made of two words, after
    [toFixed(4)]; floats are not modelled, so it is left open. *)
Variable realText : Z -> Z -> string.

(** [String(current)]. *)
Definition String_of (current : Rendered) : string :=
  match current with
  | RNumber n => pretty n
  | RReal lo hi => realText lo hi
  | RText text => text
  end.

(** The edit text that [startEditTag] sets. *)
Definition startEditTag (tag : Tag.t) (dsValues : option (list Z)) : string :=
  let current := renderTagValue tag dsValues in
  if decide (current = RText "N/A" \/ current = RText "ERR") then ""
  else String_of current.

(** The value [writeTag] sends for a tag whose [dataType] is ["bool"]. *)
Definition writeTag_bool (editValue : string) : bool :=
  bool_decide (toLowerCase editValue = "true")
  || bool_decide (editValue = "1")
  || bool_decide (toLowerCase editValue = "on").

End Editing.

End Tags.

(** The shape of value that goes with a definition's type: an array
    for ["number"], a boolean for ["bool"], a string otherwise. *)
Definition shaped (type : string) (value : PlcValue) : Prop :=
  match value with
  | VNumbers _ => type = "number"
  | VBool _ => type = "bool"
  | VString _ => type <> "number" /\ type <> "bool"
  end.

(** ** More of PlcService: lifecycle hooks and plain queries *)

Section ServiceLifecycle.
Context {Link : Type} `{!PlcCommunication Link}.

(** [this.communication.disconnect()], a call of the injected link
    that the polling code does not use. *)
Variable disconnect : Link -> Link * Result unit.

(** [onModuleInit]: try to connect, log a failure. *)
Definition onModuleInit : M (World Link) unit :=
  try_catch (comm connect ;;; ret tt) (fun _ => ret tt).


Definition getDataPoints : M (World Link) (list DataPoint.t) := findAllDataPoints.

Definition getDataPoint (key : string) : M (World Link) (option DataPoint.t) :=
  findDataPoint key.

(** *** Properties of states, continued *)



End ServiceLifecycle.

(** ** The controller ([plc.controller.ts]) *)

(** [PlcDataResponseDto]. *)
Module PlcDataResponseDto.
Record t := mk {
  value : PlcValue;
  timestamp : Z;
  error : option string
}.
End PlcDataResponseDto.

(** The body of a write request, [WriteNumbersDto | WriteStringDto |
    WriteBoolDto]: an object that may have a [values] and a [value]
    property. *)
Module WriteBody.
Record t := mk {
  values : option PlcValue;
  value : option PlcValue
}.
End WriteBody.

(** How a handler ends: with a reply, with a [NotFoundException] of its
    own, or with another exception (its own [BadRequestException] or
    one passed on from the service). *)
Inductive Response (A : Type) :=
| Replied (a : A)
| NotFoundException (msg : string)
| Failed (e : Exn).
Arguments Replied {A} a.
Arguments NotFoundException {A} msg.
Arguments Failed {A} e.

(** Inside a handler of the same name, [writeData], [registerDataPoint]
    and the like are the methods of the service. *)
Module PlcController.

Definition Handler (S A : Type) : Type := S -> S * Response A.

Section Handlers.
Context {Link : Type} `{!PlcCommunication Link}.
Variable policy : RegistryPolicy.

Local Abbreviation H := (Handler (World Link)).

Definition reply {A} (a : A) : H A := fun w => (w, Replied a).
Definition notFound {A} (msg : string) : H A := fun w => (w, NotFoundException msg).
Definition badRequest {A} (msg : string) : H A :=
  fun w => (w, Failed (BadRequestException msg)).

(** [await this.plcService.method(...)]: an exception of the service
    leaves the handler as it is. *)
Definition call {A B} (m : M (World Link) A) (k : A -> H B) : H B :=
  fun w => match m w with
           | (w', Ok a) => k a w'
           | (w', Throw e) => (w', Failed e)
           end.

(** [readData]. *)
Definition readData (key : string) : H PlcDataResponseDto.t :=
  call (getCacheItem key) (fun item =>
  match item with
  | None =>
      notFound ("Data for '" +:+ key +:+
                "' not found in DB. Make sure polling is running and the data point is registered.")
  | Some item =>
      reply {| PlcDataResponseDto.value := PlcCache.value item;
               PlcDataResponseDto.timestamp := PlcCache.timestamp item;
               PlcDataResponseDto.error := PlcCache.error item |}
  end).

(** The value that [writeData] takes from the body for a definition of
    the given type. *)
Definition bodyValue (key type : string) (body : WriteBody.t) : Result PlcValue :=
  if decide (type = "number") then
    match WriteBody.values body with
    | Some values => Ok values
    | None =>
        Throw (BadRequestException
                 ("Data point " +:+ key +:+ " expects number array (values)"))
    end
  else if decide (type = "string") then
    match WriteBody.value body with
    | Some (VString text) => Ok (VString text)
    | _ => Throw (BadRequestException ("Data point " +:+ key +:+ " expects string (value)"))
    end
  else if decide (type = "bool") then
    match WriteBody.value body with
    | Some (VBool flag) => Ok (VBool flag)
    | _ => Throw (BadRequestException ("Data point " +:+ key +:+ " expects boolean (value)"))
    end
  else Throw (BadRequestException ("Unknown data point type: " +:+ type)).

(** [writeData]; [saved!.value] on a missing row is a [TypeError]. *)
Definition writeData (key : string) (body : WriteBody.t)
  : H (string * PlcDataResponseDto.t) :=
  call (getDataPoint key) (fun definition =>
  match definition with
  | None => notFound ("Data point '" +:+ key +:+ "' not found")
  | Some definition =>
      match bodyValue key (DataPoint.type definition) body with
      | Throw e => fun w => (w, Failed e)
      | Ok value =>
          call (writeData key value) (fun _ =>
          call (getCacheItem key) (fun saved =>
          match saved with
          | Some saved =>
              reply ("Data written to PLC and saved to DB for " +:+ key,
                     {| PlcDataResponseDto.value := PlcCache.value saved;
                        PlcDataResponseDto.timestamp := PlcCache.timestamp saved;
                        PlcDataResponseDto.error := PlcCache.error saved |})
          | None =>
              fun w => (w, Failed (Error "Cannot read properties of null (reading 'value')"))
          end))
      end
  end).

(** [getStatus]. *)
Definition getStatus : H (bool * Z) :=
  call getDataPoints (fun dataPoints =>
  call isPolling (fun polling =>
  reply (polling, Z.of_nat (length dataPoints)))).

(** [registerDataPoint], [unregisterDataPoint], [startPolling],
    [stopPolling]: the call on the service and a message. *)
Definition registerDataPoint (dto : RegisterDataPointDto.t) : H (string * DataPoint.t) :=
  call (registerDataPoint policy dto) (fun saved =>
  reply ("Data point " +:+ DataPoint.key saved +:+ " registered successfully", saved)).

Definition unregisterDataPoint (key : string) : H unit :=
  call (unregisterDataPoint policy key) (fun _ => reply tt).

Definition startPolling : H string :=
  call startPolling (fun _ => reply "Polling started").

Definition stopPolling : H string :=
  call stopPolling (fun _ => reply "Polling stopped").

End Handlers.

End PlcController.

(** ** Theorems *)

Module CodecFacts.
Import Codec.

Lemma ToInt32_id z : -2147483648 <= z < 2147483648 -> ToInt32 z = z.
Proof.
  intros Hz. unfold ToInt32.
  rewrite Z.mod_small by lia. lia.
Qed.

Lemma ToInt32_range z : -2147483648 <= ToInt32 z < 2147483648.
Proof.
  unfold ToInt32.
  pose proof (Z.mod_pos_bound (z + 2147483648) 4294967296 ltac:(lia)). lia.
Qed.

(** A multiple of 2^16 and a 16-bit word have no common bit. *)
Lemma land_high_low k lo : 0 <= lo < 65536 -> Z.land (k * 65536) lo = 0.
Proof.
  intros Hlo. apply Z.bits_inj'. intros n Hn.
  rewrite Z.land_spec, Z.bits_0.
  destruct (Z.lt_ge_cases n 16) as [Hlt | Hge].
  - change 65536 with (2 ^ 16). rewrite Z.mul_pow2_bits_low by lia. reflexivity.
  - rewrite (Z.bits_above_log2 lo n); [apply andb_false_r | lia |].
    destruct (Z.eq_dec lo 0) as [-> | Hne]; [simpl; lia |].
    apply Z.lt_le_trans with 16; [| lia].
    apply Z.log2_lt_pow2; lia.
Qed.

Lemma lor_high_low k lo : 0 <= lo < 65536 -> Z.lor (k * 65536) lo = k * 65536 + lo.
Proof.
  intros Hlo.
  rewrite <- Z.lxor_lor by (apply land_high_low; lia).
  symmetry. apply Z.add_nocarry_lxor. apply land_high_low; lia.
Qed.

End CodecFacts.

Module CodecRoundTrip.
Import Codec CodecFacts.

Lemma encodeInt32_words v :
  encodeInt32 v = [v mod 65536; (v / 65536) mod 65536].
Proof.
  unfold encodeInt32.
  change 65535 with (Z.ones 16).
  rewrite !Z.land_ones, Z.shiftr_div_pow2 by lia. reflexivity.
Qed.

(** The high word of a signed 32-bit value, shifted back into place. *)
Lemma js_shl_high q :
  -32768 <= q < 32768 -> js_shl (q mod 65536) 16 = q * 65536.
Proof.
  intros Hq. unfold js_shl.
  change (Z.land 16 31) with 16.
  pose proof (Z.mod_pos_bound q 65536 ltac:(lia)) as Hb.
  rewrite (ToInt32_id (q mod 65536)) by lia.
  rewrite Z.shiftl_mul_pow2 by lia. change (2 ^ 16) with 65536.
  destruct (Z.neg_nonneg_cases q) as [Hneg | Hpos].
  - replace (q mod 65536) with (q + 65536).
    + unfold ToInt32.
      replace ((q + 65536) * 65536 + 2147483648)
        with (q * 65536 + 2147483648 + 1 * 4294967296) by lia.
      rewrite Z_mod_plus_full, Z.mod_small by lia. lia.
    + apply Z.mod_unique with (-1); lia.
  - rewrite (Z.mod_small q) by lia. apply ToInt32_id. lia.
Qed.

Lemma compose_words v :
  -2147483648 <= v <= 2147483647 ->
  js_or (js_shl ((v / 65536) mod 65536) 16) (v mod 65536) = v.
Proof.
  intros Hv. set (q := v / 65536).
  assert (Hq : -32768 <= q < 32768).
  { subst q. split.
    - apply Z.div_le_lower_bound; lia.
    - apply Z.div_lt_upper_bound; lia. }
  pose proof (Z.mod_pos_bound v 65536 ltac:(lia)) as Hlo.
  pose proof (Z.div_mod v 65536 ltac:(lia)) as Hdm. fold q in Hdm.
  rewrite js_shl_high by exact Hq.
  unfold js_or.
  rewrite (ToInt32_id (q * 65536)), (ToInt32_id (v mod 65536)) by lia.
  rewrite lor_high_low by lia.
  rewrite ToInt32_id by lia. lia.
Qed.

(** The two words of a pair stored at [length before] are the ones
    [safe] hands out. *)
Lemma safe_pair (before after : list Z) lo hi :
  let block := before ++ [lo; hi] ++ after in
  safe block (Z.of_nat (length before)) = Some lo
  /\ safe block (Z.of_nat (length before) + 1) = Some hi.
Proof.
  intros block. subst block. unfold safe.
  rewrite !length_app. simpl length.
  split.
  - rewrite (proj2 (Z.leb_le _ _)), (proj2 (Z.ltb_lt _ _)) by lia. simpl.
    rewrite Nat2Z.id, lookup_app_r by lia.
    by rewrite Nat.sub_diag.
  - rewrite (proj2 (Z.leb_le _ _)), (proj2 (Z.ltb_lt _ _)) by lia. simpl.
    replace (Z.to_nat (Z.of_nat (length before) + 1)) with (S (length before)) by lia.
    rewrite lookup_app_r by lia.
    by replace (S (length before) - length before)%nat with 1%nat by lia.
Qed.

(** [C8] The int32 codec round-trips: for every [v] in the signed
    32-bit range, decoding the low-word-first pair produced by the
    encoder with [(hi << 16) | lo] gives [v] back, wherever the pair
    sits in the block of words; in particular [[0xFFFF, 0xFFFF]]
    decodes to [-1] and [[0, 0]] to [0]. *)
Theorem int32_decode_encode (v : Z) :
  -2147483648 <= v <= 2147483647 ->
  renderTagValue_int32 0 (encodeInt32 v) = Some v
  /\ (forall before after : list Z,
        renderTagValue_int32 (Z.of_nat (length before))
                             (before ++ encodeInt32 v ++ after) = Some v)
  /\ renderTagValue_int32 0 [65535; 65535] = Some (-1)
  /\ renderTagValue_int32 0 [0; 0] = Some 0.
Proof.
  intros Hv.
  assert (Hblock : forall before after : list Z,
            renderTagValue_int32 (Z.of_nat (length before))
                                 (before ++ encodeInt32 v ++ after) = Some v).
  { intros before after. rewrite encodeInt32_words. unfold renderTagValue_int32.
    destruct (safe_pair before after (v mod 65536) ((v / 65536) mod 65536))
      as [-> ->].
    rewrite compose_words by exact Hv.
    destruct (2147483647 <? v) eqn:E; [apply Z.ltb_lt in E; lia | reflexivity]. }
  split; [| split; [exact Hblock | split; reflexivity]].
  specialize (Hblock [] []). by rewrite app_nil_r in Hblock.
Qed.

Lemma int32_decode_encode_witness :
  renderTagValue_int32 0 (encodeInt32 (-123456789)) = Some (-123456789).
Proof.
  apply (int32_decode_encode (-123456789)). lia.
Defined.

End CodecRoundTrip.

(** *** Running the monad in proofs *)

Ltac unfold_svc :=
  unfold catch_and_log, newDate, saveCache, findCache, findDataPoint, findAllDataPoints,
    clearInterval, setInterval, comm,
    bind, ret, throw, gets, modify, liftResult, try_catch in *.

Ltac split_svc :=
  repeat first
    [ progress simplify_eq/=
    | case_decide
    | case_match ].

Section ServiceFacts.
Context {Link : Type} `{!PlcCommunication Link}.
Variable policy : RegistryPolicy.

Implicit Types (w : World Link) (dataPoint : DataPoint.t).

(** *** Region codes *)

Lemma upper_ascii_idemp c : upper_ascii (upper_ascii c) = upper_ascii c.
Proof. destruct c as [[] [] [] [] [] [] [] []]; reflexivity. Qed.

Lemma toUpperCase_idemp s : toUpperCase (toUpperCase s) = toUpperCase s.
Proof. induction s as [| c s IH]; simpl; [done |]. by rewrite upper_ascii_idemp, IH. Qed.

Lemma getDeviceCode_unknown addressType :
  toUpperCase addressType ∉ ["D"; "R"; "M"; "X"; "Y"] ->
  getDeviceCode addressType
  = Throw (BadRequestException ("Invalid address type: " +:+ addressType)).
Proof.
  intros Hnot. unfold getDeviceCode.
  rewrite !lookup_insert_ne, lookup_singleton_ne; [done | ..];
    intros Heq; apply Hnot; rewrite <- Heq; set_solver.
Qed.

Lemma getDeviceCode_Ok addressType code :
  getDeviceCode addressType = Ok code ->
  toUpperCase addressType ∈ ["D"; "R"; "M"; "X"; "Y"] /\ truthy code = true.
Proof.
  intros Hok. split.
  - destruct (decide (toUpperCase addressType ∈ ["D"; "R"; "M"; "X"; "Y"]))
      as [Hin | Hnot]; [done |].
    rewrite getDeviceCode_unknown in Hok by done. discriminate.
  - unfold getDeviceCode in Hok. split_svc. done.
Qed.

Lemma getDeviceCode_same_upper addressType other code :
  toUpperCase other = toUpperCase addressType ->
  getDeviceCode other = Ok code <-> getDeviceCode addressType = Ok code.
Proof.
  intros Hsame. unfold getDeviceCode. rewrite Hsame.
  split; intros Hok; split_svc; done.
Qed.

Lemma getDeviceCode_upper addressType code :
  getDeviceCode addressType = Ok code <->
  getDeviceCode (toUpperCase addressType) = Ok code.
Proof.
  unfold getDeviceCode. rewrite toUpperCase_idemp.
  split; intros Hok; split_svc; done.
Qed.

(** *** The poll executor *)

Lemma pollDataPoint_try_inv dataPoint w w1 r :
  pollDataPoint_try dataPoint w = (w1, r) ->
  match r with
  | Ok _ =>
      exists link value,
        w1 = set_plc_cache
               (<[DataPoint.key dataPoint :=
                    {| PlcCache.key := DataPoint.key dataPoint;
                       PlcCache.value := value;
                       PlcCache.timestamp := now w;
                       PlcCache.error := None |}]> (plc_cache w))
               (set_readCount (readCount w + 1) (set_communication link w))
  | Throw _ => exists link, w1 = set_communication link w
  end.
Proof.
  unfold pollDataPoint_try. unfold_svc. destruct w. intros Hrun.
  split_svc; eauto.
Qed.

Lemma pollDataPoint_region_error dataPoint w :
  toUpperCase (DataPoint.addressType dataPoint) ∉ ["D"; "R"; "M"; "X"; "Y"] ->
  pollDataPoint_try dataPoint w
  = (w, Throw (BadRequestException
                 ("Invalid address type: " +:+ DataPoint.addressType dataPoint))).
Proof.
  intros Hnot. unfold pollDataPoint_try. unfold_svc.
  by rewrite getDeviceCode_unknown.
Qed.

Lemma pollDataPoint_outcome dataPoint w w1 r :
  pollDataPoint_try dataPoint w = (w1, r) ->
  match r with
  | Throw error =>
      pollDataPoint dataPoint w
      = (set_plc_cache
           (<[DataPoint.key dataPoint :=
                {| PlcCache.key := DataPoint.key dataPoint;
                   PlcCache.value := getEmptyValueForType (DataPoint.type dataPoint);
                   PlcCache.timestamp := now w;
                   PlcCache.error := Some (message error) |}]> (plc_cache w)) w1,
         Ok tt)
  | Ok _ =>
      pollDataPoint dataPoint w = (w1, Ok tt)
      /\ exists row, plc_cache w1 !! DataPoint.key dataPoint = Some row
                     /\ PlcCache.error row = None
  end.
Proof.
  intros Htry.
  pose proof (pollDataPoint_try_inv _ _ _ _ Htry) as Hinv.
  unfold pollDataPoint, try_catch. rewrite Htry.
  destruct r as [[] | error].
  - split; [done |]. destruct Hinv as (link & value & ->). simpl.
    eexists. by rewrite lookup_insert_eq.
  - destruct Hinv as (link & ->).
    unfold pollDataPoint_catch. unfold_svc. by destruct w.
Qed.

Lemma pollDataPoint_try_transport_error dataPoint code link e w :
  getDeviceCode (DataPoint.addressType dataPoint) = Ok code ->
  (DataPoint.type dataPoint = "number"
   /\ readNumbers code (DataPoint.address dataPoint) (DataPoint.length dataPoint)
                  (communication w) = (link, Throw e))
  \/ (DataPoint.type dataPoint = "string"
      /\ readString code (DataPoint.address dataPoint) "ascii"
                    (DataPoint.length dataPoint) (communication w) = (link, Throw e))
  \/ (DataPoint.type dataPoint = "bool"
      /\ exists bit, DataPoint.bit dataPoint = Some bit
                     /\ readBit code (DataPoint.address dataPoint) bit (communication w)
                        = (link, Throw e)) ->
  pollDataPoint_try dataPoint w = (set_communication link w, Throw e).
Proof.
  intros Hcode Hcall. unfold pollDataPoint_try. unfold_svc. rewrite Hcode.
  destruct Hcall as [[Hty Hcall] | [[Hty Hcall] | (Hty & bit & Hbit & Hcall)]];
    rewrite Hty; simpl; rewrite ?Hbit, Hcall; done.
Qed.

(** [C1] A poll never throws.  When its [try] block throws (region
    resolution, the bit check, the read), the cache row of the key is
    replaced by one that holds the empty value of the definition's
    type ([[]] for number, [false] for bool, [""] for string) and the
    message of the exception; when the block succeeds the row it
    saved has no error.  In particular a read that fails in the
    transport is recorded with the message of the link's exception. *)
Theorem pollDataPoint_records_failure dataPoint w w1 r :
  pollDataPoint_try dataPoint w = (w1, r) ->
  match r with
  | Throw error =>
      pollDataPoint dataPoint w
      = (set_plc_cache
           (<[DataPoint.key dataPoint :=
                {| PlcCache.key := DataPoint.key dataPoint;
                   PlcCache.value := getEmptyValueForType (DataPoint.type dataPoint);
                   PlcCache.timestamp := now w;
                   PlcCache.error := Some (message error) |}]> (plc_cache w)) w1,
         Ok tt)
  | Ok _ =>
      pollDataPoint dataPoint w = (w1, Ok tt)
      /\ exists row, plc_cache w1 !! DataPoint.key dataPoint = Some row
                     /\ PlcCache.error row = None
  end
  /\ (forall code link e,
        getDeviceCode (DataPoint.addressType dataPoint) = Ok code ->
        (DataPoint.type dataPoint = "number"
         /\ readNumbers code (DataPoint.address dataPoint) (DataPoint.length dataPoint)
                        (communication w) = (link, Throw e))
        \/ (DataPoint.type dataPoint = "string"
            /\ readString code (DataPoint.address dataPoint) "ascii"
                          (DataPoint.length dataPoint) (communication w)
               = (link, Throw e))
        \/ (DataPoint.type dataPoint = "bool"
            /\ exists bit, DataPoint.bit dataPoint = Some bit
                           /\ readBit code (DataPoint.address dataPoint) bit
                                      (communication w) = (link, Throw e)) ->
        r = Throw e /\ w1 = set_communication link w)
  /\ getEmptyValueForType "number" = VNumbers []
  /\ getEmptyValueForType "bool" = VBool false
  /\ getEmptyValueForType "string" = VString "".
Proof.
  intros Htry. split; [by apply pollDataPoint_outcome |]. split; [| done].
  intros code link e Hcode Hcall.
  rewrite (pollDataPoint_try_transport_error _ _ _ _ _ Hcode Hcall) in Htry.
  by simplify_eq.
Qed.

Lemma pollDataPoint_inv dataPoint w w' r :
  pollDataPoint dataPoint w = (w', r) ->
  r = Ok tt
  /\ exists link count row,
       w' = set_plc_cache (<[DataPoint.key dataPoint := row]> (plc_cache w))
              (set_readCount count (set_communication link w))
       /\ match PlcCache.error row with
          | None => count = readCount w + 1
          | Some _ => count = readCount w
          end.
Proof.
  intros Hrun.
  destruct (pollDataPoint_try dataPoint w) as [w1 r1] eqn:Htry.
  pose proof (pollDataPoint_try_inv _ _ _ _ Htry) as Hinv.
  pose proof (pollDataPoint_outcome _ _ _ _ Htry) as Hpoll.
  destruct r1 as [[] | error].
  - destruct Hpoll as [Hpoll _]. rewrite Hpoll in Hrun. simplify_eq.
    destruct Hinv as (link & value & ->). split; [done |].
    eexists link, _, _. split; [done |]. done.
  - rewrite Hpoll in Hrun. simplify_eq.
    destruct Hinv as (link & ->). split; [done |].
    eexists link, (readCount w), _. split; [by destruct w |]. done.
Qed.

(** [C3, amended] The read counter counts the polls whose read went
    through: a poll adds one to [readCount] exactly when the row it
    saves carries no error, and leaves [readCount] as it was when the
    row carries one. *)
Theorem readCount_counts_successful_polls dataPoint w w' r :
  pollDataPoint dataPoint w = (w', r) ->
  exists row,
    plc_cache w' !! DataPoint.key dataPoint = Some row
    /\ match PlcCache.error row with
       | None => readCount w' = readCount w + 1
       | Some _ => readCount w' = readCount w
       end.
Proof.
  intros Hrun. apply pollDataPoint_inv in Hrun as (_ & link & count & row & -> & Hcount).
  exists row. simpl. by rewrite lookup_insert_eq.
Qed.

(** *** The write path *)

Lemma writeData_inv key value w w' r :
  writeData key value w = (w', r) ->
  exists link,
    match r with
    | Ok _ =>
        w' = set_plc_cache
               (<[key := {| PlcCache.key := key;
                            PlcCache.value := value;
                            PlcCache.timestamp := now w;
                            PlcCache.error := None |}]> (plc_cache w))
               (set_communication link w)
    | Throw _ => w' = set_communication link w
    end.
Proof.
  unfold writeData. unfold_svc. destruct w. intros Hrun.
  split_svc; eauto.
Qed.

Lemma writeData_not_found key value w :
  data_point w !! key = None ->
  writeData key value w
  = (w, Throw (BadRequestException ("Data point not found: " +:+ key))).
Proof. intros Hnone. unfold writeData. unfold_svc. by rewrite Hnone. Qed.

Lemma writeData_invalid key value dataPoint w :
  data_point w !! key = Some dataPoint ->
  (exists e, getDeviceCode (DataPoint.addressType dataPoint) = Throw e)
  \/ (DataPoint.type dataPoint = "number" /\ forall words, value <> VNumbers words)
  \/ (DataPoint.type dataPoint = "string" /\ forall text, value <> VString text)
  \/ (DataPoint.type dataPoint = "bool"
      /\ ((forall flag, value <> VBool flag) \/ DataPoint.bit dataPoint = None))
  \/ (DataPoint.type dataPoint <> "number" /\ DataPoint.type dataPoint <> "string"
      /\ DataPoint.type dataPoint <> "bool") ->
  exists msg, writeData key value w = (w, Throw (BadRequestException msg)).
Proof.
  intros Hfind Hbad. unfold writeData. unfold_svc. rewrite Hfind.
  destruct (getDeviceCode (DataPoint.addressType dataPoint)) as [code | e] eqn:Hcode.
  - destruct Hbad as [[e He] | [[Hty Hval] | [[Hty Hval] | [[Hty Hval] | (H1 & H2 & H3)]]]];
      [done | ..]; try rewrite Hty; simpl.
    + destruct value; eauto. by destruct (Hval words).
    + destruct value; eauto. by destruct (Hval text).
    + destruct value; eauto. destruct Hval as [Hval | ->]; [by destruct (Hval flag) | eauto].
    + repeat case_decide; try done. eauto.
  - unfold getDeviceCode in Hcode. split_svc; eauto.
Qed.

Lemma writeData_transport_error key value dataPoint code link e w :
  data_point w !! key = Some dataPoint ->
  getDeviceCode (DataPoint.addressType dataPoint) = Ok code ->
  (exists words,
     DataPoint.type dataPoint = "number" /\ value = VNumbers words
     /\ writeNumbers code (DataPoint.address dataPoint) words (communication w)
        = (link, Throw e))
  \/ (exists text,
        DataPoint.type dataPoint = "string" /\ value = VString text
        /\ writeString code (DataPoint.address dataPoint) text "ascii" (communication w)
           = (link, Throw e))
  \/ (exists flag bit,
        DataPoint.type dataPoint = "bool" /\ value = VBool flag
        /\ DataPoint.bit dataPoint = Some bit
        /\ writeBit code (DataPoint.address dataPoint) bit flag (communication w)
           = (link, Throw e)) ->
  writeData key value w = (set_communication link w, Throw e).
Proof.
  intros Hfind Hcode Hcall. unfold writeData. unfold_svc. rewrite Hfind, Hcode.
  destruct Hcall as [(words & Hty & -> & Hcall)
                    | [(text & Hty & -> & Hcall) | (flag & bit & Hty & -> & Hbit & Hcall)]];
    rewrite Hty; simpl; rewrite ?Hbit, Hcall; done.
Qed.

(** [C2] A write that fails, whether on validation (the key is not
    registered, the region code is unknown, the value has the wrong
    shape for the definition's type, a bool definition has no bit
    position) or in the transport, ends in a thrown exception and
    leaves the cache as it was; the cache row is replaced only when
    the device write went through.  A validation failure does not
    touch the world at all, a transport failure passes the exception
    of the link on to the caller. *)
Theorem writeData_failure_keeps_cache key value w w' r :
  writeData key value w = (w', r) ->
  match r with
  | Throw _ => plc_cache w' = plc_cache w
  | Ok _ =>
      plc_cache w' = <[key := {| PlcCache.key := key;
                                 PlcCache.value := value;
                                 PlcCache.timestamp := now w;
                                 PlcCache.error := None |}]> (plc_cache w)
  end
  /\ (data_point w !! key = None ->
      r = Throw (BadRequestException ("Data point not found: " +:+ key)) /\ w' = w)
  /\ (forall dataPoint,
        data_point w !! key = Some dataPoint ->
        (exists e, getDeviceCode (DataPoint.addressType dataPoint) = Throw e)
        \/ (DataPoint.type dataPoint = "number" /\ forall words, value <> VNumbers words)
        \/ (DataPoint.type dataPoint = "string" /\ forall text, value <> VString text)
        \/ (DataPoint.type dataPoint = "bool"
            /\ ((forall flag, value <> VBool flag) \/ DataPoint.bit dataPoint = None))
        \/ (DataPoint.type dataPoint <> "number" /\ DataPoint.type dataPoint <> "string"
            /\ DataPoint.type dataPoint <> "bool") ->
        (exists msg, r = Throw (BadRequestException msg)) /\ w' = w)
  /\ (forall dataPoint code link e,
        data_point w !! key = Some dataPoint ->
        getDeviceCode (DataPoint.addressType dataPoint) = Ok code ->
        (exists words,
           DataPoint.type dataPoint = "number" /\ value = VNumbers words
           /\ writeNumbers code (DataPoint.address dataPoint) words (communication w)
              = (link, Throw e))
        \/ (exists text,
              DataPoint.type dataPoint = "string" /\ value = VString text
              /\ writeString code (DataPoint.address dataPoint) text "ascii"
                             (communication w)
                 = (link, Throw e))
        \/ (exists flag bit,
              DataPoint.type dataPoint = "bool" /\ value = VBool flag
              /\ DataPoint.bit dataPoint = Some bit
              /\ writeBit code (DataPoint.address dataPoint) bit flag (communication w)
                 = (link, Throw e)) ->
        r = Throw e /\ plc_cache w' = plc_cache w).
Proof.
  intros Hrun. split; [| split; [| split]].
  - destruct (writeData_inv _ _ _ _ _ Hrun) as [link Hinv].
    destruct r; subst w'; done.
  - intros Hnone. rewrite writeData_not_found in Hrun by done. by simplify_eq.
  - intros dataPoint Hfind Hbad.
    destruct (writeData_invalid key value dataPoint w Hfind Hbad) as [msg Hw].
    rewrite Hw in Hrun. simplify_eq. eauto.
  - intros dataPoint code link e Hfind Hcode Hcall.
    rewrite (writeData_transport_error _ _ _ _ _ _ _ Hfind Hcode Hcall) in Hrun.
    by simplify_eq.
Qed.

(** [C10] Region codes are resolved on the upper-cased address type,
    so a spelling and its upper-casing resolve to the same code.  An
    address type whose upper-casing is none of D, R, M, X, Y makes
    [getDeviceCode] throw a [BadRequestException]; a write to such a
    definition throws it to the caller and changes nothing, a poll of
    such a definition records its message in the cache row. *)
Theorem getDeviceCode_case_insensitive (addressType : string) :
  (forall other code,
     toUpperCase other = toUpperCase addressType ->
     getDeviceCode other = Ok code <-> getDeviceCode addressType = Ok code)
  /\ (forall code, getDeviceCode addressType = Ok code <->
                   getDeviceCode (toUpperCase addressType) = Ok code)
  /\ (forall code, getDeviceCode addressType = Ok code ->
        toUpperCase addressType ∈ ["D"; "R"; "M"; "X"; "Y"])
  /\ (toUpperCase addressType ∉ ["D"; "R"; "M"; "X"; "Y"] ->
      let failure := BadRequestException ("Invalid address type: " +:+ addressType) in
      getDeviceCode addressType = Throw failure
      /\ (forall key value dataPoint w,
            data_point w !! key = Some dataPoint ->
            DataPoint.addressType dataPoint = addressType ->
            writeData key value w = (w, Throw failure))
      /\ (forall dataPoint w,
            DataPoint.addressType dataPoint = addressType ->
            pollDataPoint dataPoint w
            = (set_plc_cache
                 (<[DataPoint.key dataPoint :=
                      {| PlcCache.key := DataPoint.key dataPoint;
                         PlcCache.value :=
                           getEmptyValueForType (DataPoint.type dataPoint);
                         PlcCache.timestamp := now w;
                         PlcCache.error := Some (message failure) |}]> (plc_cache w))
                 w, Ok tt))).
Proof.
  split; [apply getDeviceCode_same_upper |].
  split; [apply getDeviceCode_upper |].
  split; [intros code Hok; by apply getDeviceCode_Ok in Hok as [? _] |].
  intros Hnot failure. split; [by apply getDeviceCode_unknown |]. split.
  - intros key value dataPoint w Hfind <-.
    unfold writeData. unfold_svc. rewrite Hfind.
    by rewrite getDeviceCode_unknown.
  - intros dataPoint w <-.
    pose proof (pollDataPoint_region_error dataPoint w Hnot) as Htry.
    exact (pollDataPoint_outcome _ _ _ _ Htry).
Qed.

(** *** Timer maps *)

Lemma timers_ok_empty next : timers_ok ∅ ∅ next.
Proof. repeat split; intros ? ?; by rewrite lookup_empty. Qed.

Lemma timers_ok_unique timers live next t1 t2 dp1 dp2 :
  timers_ok timers live next ->
  live !! t1 = Some dp1 -> live !! t2 = Some dp2 ->
  DataPoint.key dp1 = DataPoint.key dp2 -> t1 = t2.
Proof.
  intros (_ & Hlive & _) H1 H2 Hkey.
  apply Hlive in H1, H2. rewrite Hkey in H1. congruence.
Qed.

(** What [stopPollingForDataPoint key] does to the two maps. *)
Lemma timers_ok_cancel key timers live next :
  timers_ok timers live next ->
  let live' := match timers !! key with
               | Some timer => delete timer live
               | None => live
               end in
  timers_ok (delete key timers) live' next /\ unpolled key live'.
Proof.
  intros (Hmap & Hlive & Hfresh) live'. subst live'.
  destruct (timers !! key) as [old |] eqn:Hold.
  - split; [split; [| split] |].
    + intros k t [Hne Hk]%lookup_delete_Some.
      destruct (Hmap _ _ Hk) as (dp & Hdp & Hkey). exists dp. split; [| done].
      rewrite lookup_delete_ne; [done |]. intros ->.
      destruct (Hmap _ _ Hold) as (dp' & Hdp' & Hkey'). congruence.
    + intros t dp [Hne Ht]%lookup_delete_Some.
      rewrite lookup_delete_ne; [by apply Hlive |].
      intros Heq. apply Hlive in Ht. congruence.
    + intros t dp [_ Ht]%lookup_delete_Some. by eapply Hfresh.
    + intros t dp [Hne Ht]%lookup_delete_Some Hkey. apply Hlive in Ht. congruence.
  - rewrite delete_id by done. split; [done |].
    intros t dp Ht Hkey. apply Hlive in Ht. congruence.
Qed.

(** What [setInterval] and [pollingTimers.set] do to them, for a key
    that has no timer. *)
Lemma timers_ok_install dataPoint timers live next :
  timers_ok timers live next ->
  timers !! DataPoint.key dataPoint = None ->
  timers_ok (<[DataPoint.key dataPoint := next]> timers) (<[next := dataPoint]> live)
            (S next).
Proof.
  intros (Hmap & Hlive & Hfresh) Hnone. split; [| split].
  - intros k t [[<- <-] | [Hne Hk]]%lookup_insert_Some.
    + exists dataPoint. by rewrite lookup_insert_eq.
    + destruct (Hmap _ _ Hk) as (dp & Hdp & Hkey). exists dp. split; [| done].
      rewrite lookup_insert_ne; [done |]. intros <-. apply Hfresh in Hdp. lia.
  - intros t dp [[<- <-] | [Hne Ht]]%lookup_insert_Some.
    + by rewrite lookup_insert_eq.
    + rewrite lookup_insert_ne; [by apply Hlive |].
      intros Heq. apply Hlive in Ht. congruence.
  - intros t dp [[<- <-] | [Hne Ht]]%lookup_insert_Some; [lia |].
    apply Hfresh in Ht. lia.
Qed.

(** Clearing every timer of the map leaves exactly the intervals the
    map does not mention. *)
Lemma clear_all_lookup (timers : gmap string nat) (live : gmap nat DataPoint.t) t dp :
  map_fold (fun _ timer live => delete timer live) live timers !! t = Some dp
  <-> live !! t = Some dp /\ forall key, timers !! key <> Some t.
Proof.
  revert t dp.
  apply (map_fold_weak_ind
           (fun r (m : gmap string nat) =>
              forall t dp, r !! t = Some dp
                           <-> live !! t = Some dp /\ forall key, m !! key <> Some t)).
  - intros t dp. split; [| by intros [? _]].
    intros Ht. split; [done |]. intros key. by rewrite lookup_empty.
  - intros key timer m r Hfresh IH t dp. rewrite lookup_delete_Some, IH. split.
    + intros (Hne & Hlive & Hnot). split; [done |]. intros k Hk.
      apply lookup_insert_Some in Hk as [[_ ->] | [_ Hk]]; [done | by eapply Hnot].
    + intros (Hlive & Hnot). split; [| split; [done |]].
      * intros ->. apply (Hnot key). by rewrite lookup_insert_eq.
      * intros k Hk. apply (Hnot k). rewrite lookup_insert_ne; [done |].
        intros ->. congruence.
Qed.

Lemma clear_all_ok timers live next :
  timers_ok timers live next ->
  map_fold (fun _ timer live => delete timer live) live timers = ∅.
Proof.
  intros (_ & Hlive & _). apply map_empty. intros t.
  destruct (map_fold _ _ _ !! t) as [dp |] eqn:Ht; [| done].
  apply clear_all_lookup in Ht as [Ht Hnot].
  apply Hlive in Ht. by destruct (Hnot _ Ht).
Qed.

Lemma clear_all_unpolled key (timers : gmap string nat) live :
  unpolled key live ->
  unpolled key (map_fold (fun _ timer live => delete timer live) live timers).
Proof. intros Hnone t dp [Ht _]%clear_all_lookup. by eapply Hnone. Qed.

(** *** Timer operations *)

Lemma stopPollingForDataPoint_run key w :
  stopPollingForDataPoint key w
  = (match pollingTimers w !! key with
     | Some timer =>
         set_pollingTimers (delete key (pollingTimers w))
           (set_intervals (delete timer (intervals w)) w)
     | None => w
     end, Ok tt).
Proof.
  unfold stopPollingForDataPoint. unfold_svc.
  by destruct (pollingTimers w !! key).
Qed.

Lemma stopPollingForDataPoint_inv key w :
  let w' := (stopPollingForDataPoint key w).1 in
  pollingTimers w' = delete key (pollingTimers w)
  /\ intervals w' = match pollingTimers w !! key with
                    | Some timer => delete timer (intervals w)
                    | None => intervals w
                    end
  /\ nextTimer w' = nextTimer w
  /\ isPollingActive w' = isPollingActive w
  /\ data_point w' = data_point w
  /\ plc_cache w' = plc_cache w.
Proof.
  rewrite stopPollingForDataPoint_run. simpl.
  destruct (pollingTimers w !! key) eqn:Hold; [done |].
  by rewrite delete_id.
Qed.

Lemma catch_and_log_poll dataPoint w :
  exists link count row,
    catch_and_log (pollDataPoint dataPoint) w
    = (set_plc_cache (<[DataPoint.key dataPoint := row]> (plc_cache w))
         (set_readCount count (set_communication link w)), Ok tt).
Proof.
  destruct (pollDataPoint dataPoint w) as [w' r] eqn:Hpoll.
  destruct (pollDataPoint_inv _ _ _ _ Hpoll) as (-> & link & count & row & -> & _).
  exists link, count, row. unfold catch_and_log, try_catch. by rewrite Hpoll.
Qed.

Lemma startPollingForDataPoint_inv dataPoint w :
  exists w',
    startPollingForDataPoint dataPoint w = (w', Ok tt)
    /\ pollingTimers w' = <[DataPoint.key dataPoint := nextTimer w]> (pollingTimers w)
    /\ intervals w'
       = <[nextTimer w := dataPoint]>
           (match pollingTimers w !! DataPoint.key dataPoint with
            | Some timer => delete timer (intervals w)
            | None => intervals w
            end)
    /\ nextTimer w' = S (nextTimer w)
    /\ isPollingActive w' = isPollingActive w
    /\ data_point w' = data_point w
    /\ exists row, plc_cache w' = <[DataPoint.key dataPoint := row]> (plc_cache w).
Proof.
  unfold startPollingForDataPoint, bind at 1.
  rewrite stopPollingForDataPoint_run.
  unfold setInterval, modify, bind.
  match goal with
  | |- context [catch_and_log _ ?w0] =>
      destruct (catch_and_log_poll dataPoint w0) as (link & count & row & ->)
  end.
  eexists. split; [done |].
  destruct (pollingTimers w !! DataPoint.key dataPoint) as [timer |] eqn:Hold;
    simpl; rewrite ?insert_delete_eq; eauto 10.
Qed.

Lemma startPollingForDataPoint_wf dataPoint w :
  timers_wf w -> timers_wf (startPollingForDataPoint dataPoint w).1.
Proof.
  intros Hwf.
  destruct (startPollingForDataPoint_inv dataPoint w)
    as (w' & -> & Htimers & Hlive & Hnext & _).
  unfold timers_wf. simpl. rewrite Htimers, Hlive, Hnext, <- insert_delete_eq.
  destruct (timers_ok_cancel (DataPoint.key dataPoint) _ _ _ Hwf) as [Hcancelled _].
  apply timers_ok_install; [done | apply lookup_delete_eq].
Qed.

(** A property that every activation keeps holds after the loop, and
    the loop does not throw. *)
Lemma forEach_start_inv (P : World Link -> Prop) dataPoints w :
  (forall dataPoint w0, dataPoint ∈ dataPoints -> P w0 ->
     P (startPollingForDataPoint dataPoint w0).1) ->
  P w ->
  exists w', forEach dataPoints startPollingForDataPoint w = (w', Ok tt) /\ P w'.
Proof.
  revert w. induction dataPoints as [| dp rest IH]; intros w Hkeep Hw; simpl.
  - by exists w.
  - unfold bind.
    pose proof (Hkeep dp w ltac:(left) Hw) as Hw1.
    destruct (startPollingForDataPoint_inv dp w) as (w1 & Hrun & _).
    rewrite Hrun in Hw1 |- *. simpl in Hw1.
    apply IH; [| done]. intros dp' w0 Hin. apply Hkeep. by right.
Qed.

Lemma stopPolling_run w :
  stopPolling w
  = (if isPollingActive w
     then set_pollingTimers ∅
            (set_intervals
               (map_fold (fun _ timer live => delete timer live)
                         (intervals w) (pollingTimers w))
               (set_pollingStartTime None (set_readCount 0 (set_isPollingActive false w))))
     else w, Ok tt).
Proof.
  unfold stopPolling. unfold_svc. by destruct (isPollingActive w).
Qed.

(** The three ways [startPolling] can go: already polling; the
    connection cannot be made; the loop over the registry. *)
Lemma startPolling_cases w w' r :
  startPolling w = (w', r) ->
  (isPollingActive w = true /\ w' = w /\ r = Ok tt)
  \/ (isPollingActive w = false
      /\ exists link e, w' = set_communication link w /\ r = Throw e)
  \/ (isPollingActive w = false
      /\ exists link,
           forEach (map_to_list (data_point w)).*2 startPollingForDataPoint
             (set_pollingStartTime (Some (now w))
                (set_readCount 0 (set_isPollingActive true (set_communication link w))))
           = (w', r)).
Proof.
  unfold startPolling. unfold bind at 1. unfold gets at 1.
  destruct (isPollingActive w) eqn:Hact.
  { unfold ret. intros [= <- <-]. by left. }
  unfold bind at 1. unfold gets at 1. unfold bind at 1.
  intros Hrun. right.
  assert (Hconn : exists link r0,
    (if negb (isConnectionActive (communication w)) then comm connect else ret tt) w
    = (set_communication link w, r0)).
  { destruct (negb _).
    - unfold comm. destruct (connect (communication w)) as [l r0]. eauto.
    - exists (communication w), (Ok tt). by destruct w. }
  destruct Hconn as (link & r0 & Hconn). rewrite Hconn in Hrun.
  destruct r0 as [[] | e].
  - right. split; [done |]. exists link. by unfold_svc.
  - left. split; [done |]. simplify_eq. eauto.
Qed.

(** *** Requests *)

Lemma registerDataPoint_run dto w :
  registerDataPoint policy dto w
  = match create_refused policy (newDataPoint dto) (data_point w) with
    | Some e => (w, Throw e)
    | None =>
        let w0 := set_data_point
                    (<[RegisterDataPointDto.key dto := newDataPoint dto]> (data_point w))
                    w in
        (if isPollingActive w
         then (startPollingForDataPoint (newDataPoint dto) w0).1
         else w0,
         Ok (newDataPoint dto))
    end.
Proof.
  unfold registerDataPoint, createDataPoint. unfold bind at 1.
  destruct (create_refused policy (newDataPoint dto) (data_point w)) as [e |]; [done |].
  unfold bind at 1. unfold gets at 1. simpl.
  destruct (isPollingActive w) eqn:Hact; [| done].
  unfold bind at 1.
  match goal with
  | |- context [startPollingForDataPoint ?dp ?w0] =>
      destruct (startPollingForDataPoint_inv dp w0) as (w1 & -> & _)
  end.
  done.
Qed.

Lemma unregisterDataPoint_run key w :
  unregisterDataPoint policy key w
  = match delete_refused policy key (data_point w) with
    | Some e => ((stopPollingForDataPoint key w).1, Throw e)
    | None =>
        (set_data_point (delete key (data_point w)) (stopPollingForDataPoint key w).1,
         Ok tt)
    end.
Proof.
  unfold unregisterDataPoint, bind.
  destruct (stopPollingForDataPoint_inv key w) as (_ & _ & _ & _ & Hreg & _).
  rewrite stopPollingForDataPoint_run in *. simpl in *.
  unfold deleteDataPoint. rewrite Hreg.
  by destruct (delete_refused policy key (data_point w)).
Qed.

Lemma fire_run timer w :
  fire timer w
  = match intervals w !! timer with
    | Some dataPoint => catch_and_log (pollDataPoint dataPoint) w
    | None => (w, Ok tt)
    end.
Proof. unfold fire, bind, gets. by destruct (intervals w !! timer). Qed.

(** *** Invariants of the transition system *)

Lemma timers_wf_frame w w' :
  pollingTimers w' = pollingTimers w ->
  intervals w' = intervals w ->
  nextTimer w' = nextTimer w ->
  timers_wf w -> timers_wf w'.
Proof. unfold timers_wf. by intros -> -> ->. Qed.

Lemma stopPollingForDataPoint_wf key w :
  timers_wf w ->
  timers_wf (stopPollingForDataPoint key w).1
  /\ no_timer_for key (stopPollingForDataPoint key w).1.
Proof.
  intros Hwf.
  destruct (stopPollingForDataPoint_inv key w) as (Ht & Hi & Hn & _).
  unfold timers_wf, no_timer_for. rewrite Ht, Hi, Hn.
  by apply timers_ok_cancel.
Qed.

Lemma startPolling_wf w : timers_wf w -> timers_wf (startPolling w).1.
Proof.
  intros Hwf. destruct (startPolling w) as [w' r] eqn:Hrun. simpl.
  apply startPolling_cases in Hrun
    as [(_ & -> & _) | [(_ & link & e & -> & _) | (_ & link & Hloop)]]; [done .. |].
  edestruct (forEach_start_inv timers_wf) as (w1 & Hrun1 & Hwf1);
    [| | rewrite Hrun1 in Hloop; by simplify_eq].
  - intros dp w0 _. apply startPollingForDataPoint_wf.
  - done.
Qed.

Lemma step_wf w ev : timers_wf w -> timers_wf (step policy w ev).
Proof.
  intros Hwf. destruct ev as [dto | key | | | key value | timer | ms | link]; simpl.
  - rewrite registerDataPoint_run.
    destruct (create_refused policy _ _); [done |]. simpl.
    destruct (isPollingActive w); [| done].
    by apply startPollingForDataPoint_wf.
  - rewrite unregisterDataPoint_run.
    destruct (stopPollingForDataPoint_wf key w Hwf) as [Hstopped _].
    by destruct (delete_refused policy _ _).
  - by apply startPolling_wf.
  - rewrite stopPolling_run. simpl. destruct (isPollingActive w); [| done].
    unfold timers_wf. simpl. erewrite clear_all_ok by done. apply timers_ok_empty.
  - destruct (writeData key value w) as [w' r] eqn:Hrun.
    destruct (writeData_inv _ _ _ _ _ Hrun) as [link Hinv].
    by destruct r; subst w'.
  - rewrite fire_run. destruct (intervals w !! timer) as [dp |]; [| done].
    by destruct (catch_and_log_poll dp w) as (link & count & row & ->).
  - done.
  - done.
Qed.

Lemma run_wf w evs : timers_wf w -> timers_wf (run policy w evs).
Proof.
  revert w. induction evs as [| ev evs IH]; intros w Hwf; [done |].
  apply IH. by apply step_wf.
Qed.

Lemma boot_wf (link : Link) registry cache t0 :
  timers_wf (boot link registry cache t0).
Proof. apply timers_ok_empty. Qed.

(** Background events on a world where no live interval polls [key]. *)
Lemma background_keeps key w ev :
  background ev ->
  no_timer_for key w ->
  no_timer_for key (step policy w ev)
  /\ plc_cache (step policy w ev) !! key = plc_cache w !! key.
Proof.
  destruct ev; simpl; try done; intros _ Hnone.
  rewrite fire_run.
  destruct (intervals w !! timer) as [dp |] eqn:Hlive; [| done].
  destruct (catch_and_log_poll dp w) as (link & count & row & ->). simpl.
  split; [done |]. rewrite lookup_insert_ne; [done |]. by eapply Hnone.
Qed.

Lemma background_run_keeps key w evs :
  Forall background evs ->
  no_timer_for key w ->
  plc_cache (run policy w evs) !! key = plc_cache w !! key.
Proof.
  intros Hall. revert w. induction Hall as [| ev evs Hev _ IH]; intros w Hnone; [done |].
  destruct (background_keeps key w ev Hev Hnone) as [Hnone' Hsame].
  unfold run in *. simpl. by rewrite IH.
Qed.

(** A stopped service with no timer stays so until [startPolling]. *)
Lemma step_idle w ev : ev <> EvStartPolling -> idle w -> idle (step policy w ev).
Proof.
  intros Hev (Hact & Htimers & Hlive).
  destruct ev as [dto | key | | | key value | timer | ms | link]; simpl; try done.
  - rewrite registerDataPoint_run.
    destruct (create_refused policy _ _); [done |]. simpl. by rewrite Hact.
  - rewrite unregisterDataPoint_run.
    destruct (stopPollingForDataPoint_inv key w) as (Ht & Hi & _ & Ha & _).
    rewrite Htimers, lookup_empty, delete_empty in *.
    destruct (delete_refused policy _ _); unfold idle; simpl; by rewrite Ht, Hi, Ha.
  - rewrite stopPolling_run, Hact. done.
  - destruct (writeData key value w) as [w' r] eqn:Hrun.
    destruct (writeData_inv _ _ _ _ _ Hrun) as [link Hinv].
    by destruct r; subst w'.
  - by rewrite fire_run, Hlive, lookup_empty.
Qed.

Lemma run_idle w evs :
  Forall (fun ev => ev <> EvStartPolling) evs -> idle w -> idle (run policy w evs).
Proof.
  intros Hall. revert w. induction Hall as [| ev evs Hev _ IH]; intros w Hidle; [done |].
  apply IH. by apply step_idle.
Qed.

Lemma idle_background_run w evs :
  Forall background evs -> idle w -> plc_cache (run policy w evs) = plc_cache w.
Proof.
  intros Hall (_ & _ & Hlive). apply map_eq. intros key.
  apply background_run_keeps; [done |].
  intros timer dp. unfold no_timer_for. by rewrite Hlive, lookup_empty.
Qed.

(** A key that is neither registered nor polled stays so, and its
    cache row stays as it is, until the key is registered again. *)
Lemma startPollingForDataPoint_other key dataPoint w :
  DataPoint.key dataPoint <> key ->
  no_timer_for key w ->
  let w' := (startPollingForDataPoint dataPoint w).1 in
  no_timer_for key w'
  /\ data_point w' = data_point w
  /\ plc_cache w' !! key = plc_cache w !! key.
Proof.
  intros Hne Hnone.
  destruct (startPollingForDataPoint_inv dataPoint w)
    as (w' & -> & _ & Hlive & _ & _ & Hreg & row & Hcache). simpl.
  split; [| split; [done |]].
  - unfold no_timer_for. rewrite Hlive.
    intros t dp [[<- <-] | [_ Ht]]%lookup_insert_Some; [done |].
    destruct (pollingTimers w !! DataPoint.key dataPoint).
    + apply lookup_delete_Some in Ht as [_ Ht]. by eapply Hnone.
    + by eapply Hnone.
  - by rewrite Hcache, lookup_insert_ne.
Qed.

Lemma step_retired key w ev :
  ~ registers key ev ->
  retired key w ->
  retired key (step policy w ev)
  /\ plc_cache (step policy w ev) !! key = plc_cache w !! key.
Proof.
  intros Hev (Hnone & Hgone & Hreg).
  destruct ev as [dto | k | | | k value | timer | ms | link]; simpl in *.
  - rewrite registerDataPoint_run.
    destruct (create_refused policy _ _); [done |]. simpl.
    set (w0 := set_data_point _ w).
    assert (Hw0 : retired key w0).
    { split; [done |]. simpl. split; [by rewrite lookup_insert_ne |].
      intros k dp [[<- <-] | [_ Hk]]%lookup_insert_Some; [done | by apply Hreg]. }
    destruct (isPollingActive w); [| done].
    destruct Hw0 as (Hnone0 & Hgone0 & Hreg0).
    destruct (startPollingForDataPoint_other key (newDataPoint dto) w0)
      as (Hnone' & Hsame & Hcache); [done .. |].
    unfold retired. by rewrite Hsame.
  - rewrite unregisterDataPoint_run.
    destruct (stopPollingForDataPoint_inv k w) as (_ & Hi & _ & _ & Hd & Hc).
    assert (Hnone' : no_timer_for key (stopPollingForDataPoint k w).1).
    { unfold no_timer_for. rewrite Hi. destruct (pollingTimers w !! k); [| done].
      intros t dp [_ Ht]%lookup_delete_Some. by eapply Hnone. }
    set (w0 := (stopPollingForDataPoint k w).1) in *.
    destruct (delete_refused policy _ _); simpl; (split; [| by rewrite Hc]);
      unfold retired; simpl; [by rewrite Hd |].
    split; [done |]. split.
    + apply lookup_delete_None. by right.
    + intros k' dp [_ Hk]%lookup_delete_Some. by apply Hreg.
  - destruct (startPolling w) as [w' r] eqn:Hrun. simpl.
    apply startPolling_cases in Hrun
      as [(_ & -> & _) | [(_ & link & e & -> & _) | (_ & link & Hloop)]]; [done .. |].
    edestruct (forEach_start_inv
                 (fun w0 => no_timer_for key w0 /\ data_point w0 = data_point w
                            /\ plc_cache w0 !! key = plc_cache w !! key))
      as (w1 & Hrun1 & Hnone1 & Hreg1 & Hcache1);
      [| | rewrite Hrun1 in Hloop; simplify_eq; unfold retired; by rewrite Hreg1].
    + intros dp w0 Hin (Hnone0 & Hreg0 & Hcache0).
      destruct (startPollingForDataPoint_other key dp w0) as (? & Hsame & Hc);
        [| done |].
      * apply list_elem_of_fmap in Hin as ([k' dp'] & -> & Hin).
        apply elem_of_map_to_list in Hin. simpl.
        rewrite (Hreg _ _ Hin). intros ->. congruence.
      * split; [done |]. split; congruence.
    + done.
  - rewrite stopPolling_run. simpl. destruct (isPollingActive w); [| done].
    split; [| done]. split; [| done].
    unfold no_timer_for. simpl. by apply clear_all_unpolled.
  - destruct (decide (k = key)) as [-> | Hne].
    + by rewrite writeData_not_found.
    + destruct (writeData k value w) as [w' r] eqn:Hrun.
      destruct (writeData_inv _ _ _ _ _ Hrun) as [link Hinv].
      destruct r; subst w'; simpl; [| done].
      split; [done |]. by rewrite lookup_insert_ne.
  - destruct (background_keeps key w (EvTimer timer) I Hnone) as [Hnone' Hcache].
    split; [| done]. split; [done |]. simpl.
    rewrite fire_run. destruct (intervals w !! timer) as [dp |]; [| done].
    by destruct (catch_and_log_poll dp w) as (link & count & row & ->).
  - done.
  - done.
Qed.

Lemma run_retired key w evs :
  Forall (fun ev => ~ registers key ev) evs ->
  retired key w ->
  plc_cache (run policy w evs) !! key = plc_cache w !! key.
Proof.
  intros Hall. revert w. induction Hall as [| ev evs Hev _ IH]; intros w Hw; [done |].
  destruct (step_retired key w ev Hev Hw) as [Hw' Hsame].
  unfold run in *. simpl. by rewrite IH.
Qed.

Lemma startPollingForDataPoint_replaces dataPoint w :
  timers_wf w ->
  let w' := (startPollingForDataPoint dataPoint w).1 in
  pollingTimers w' !! DataPoint.key dataPoint = Some (nextTimer w)
  /\ intervals w' !! nextTimer w = Some dataPoint
  /\ (forall old, pollingTimers w !! DataPoint.key dataPoint = Some old ->
        intervals w' !! old = None)
  /\ (forall timer dp, intervals w' !! timer = Some dp ->
        DataPoint.key dp = DataPoint.key dataPoint -> timer = nextTimer w).
Proof.
  intros Hwf w'. subst w'.
  pose proof (startPollingForDataPoint_wf dataPoint w Hwf) as Hwf'.
  destruct (startPollingForDataPoint_inv dataPoint w)
    as (w' & Hrun & Htimers & Hlive & _).
  rewrite Hrun in *. simpl in *.
  assert (Hnew : intervals w' !! nextTimer w = Some dataPoint)
    by (rewrite Hlive; apply lookup_insert_eq).
  split; [rewrite Htimers; apply lookup_insert_eq |]. split; [done |]. split.
  - intros old Hold. rewrite Hlive, Hold.
    destruct Hwf as (Hmap & _ & Hfresh).
    destruct (Hmap _ _ Hold) as (dp & Hdp & _). apply Hfresh in Hdp.
    rewrite lookup_insert_ne by lia. apply lookup_delete_eq.
  - intros timer dp Htimer Hkey.
    by apply (timers_ok_unique _ _ _ timer (nextTimer w) dp dataPoint Hwf').
Qed.

(** *** The scheduler *)


(** [C5] [startPolling] on a service that is already polling changes
    nothing: no timer is created or replaced, [readCount] and the start
    time stay.  Hence a second [startPolling] right after one that went
    through is a no-op, and two calls in a row end in the same world as
    one. *)
Theorem startPolling_idempotent w w1 r :
  startPolling w = (w1, r) ->
  (isPollingActive w = true -> w1 = w /\ r = Ok tt)
  /\ (r = Ok tt -> isPollingActive w1 = true /\ startPolling w1 = (w1, Ok tt))
  /\ (r = Ok tt -> (startPolling ;;; startPolling) w = startPolling w).
Proof.
  intros Hrun.
  assert (Hnoop : forall w0 : World Link,
            isPollingActive w0 = true -> startPolling w0 = (w0, Ok tt)).
  { intros w0 Hact. unfold startPolling. unfold_svc. by rewrite Hact. }
  assert (Hactive : r = Ok tt -> isPollingActive w1 = true).
  { intros ->. apply startPolling_cases in Hrun
      as [(Hact & -> & _) | [(_ & link & e & _ & ?) | (_ & link & Hloop)]]; [done .. |].
    edestruct (forEach_start_inv (fun w0 => isPollingActive w0 = true))
      as (w2 & Hrun2 & Hact2); [| | rewrite Hrun2 in Hloop; by simplify_eq].
    - intros dp w0 _ Hact0.
      destruct (startPollingForDataPoint_inv dp w0) as (w3 & -> & _ & _ & _ & Hsame & _).
      simpl. congruence.
    - done. }
  split; [| split].
  - intros Hact. rewrite (Hnoop w Hact) in Hrun. by simplify_eq.
  - intros Hr. auto.
  - intros Hr. unfold bind. rewrite Hrun. subst r. auto.
Qed.

(** [C6] [stopPolling] on a polling service never throws and leaves it
    stopped, with [readCount] 0, no start time, an empty timer map and
    no live interval; the cache is not touched and the metrics read
    0, 0, 0.  Until the next [startPolling] the service stays stopped
    with no timer and the metrics stay 0, 0, 0, whatever is requested
    of it; and whatever timers fire and however much time passes, the
    cache stays as it is.  On a stopped service [stopPolling] changes
    nothing. *)
Theorem stopPolling_resets w :
  timers_wf w ->
  isPollingActive w = true ->
  let w' := (stopPolling w).1 in
  let zero := {| metrics_readCount := 0; readsPerSecond := 0; elapsedSeconds := 0 |} in
  (stopPolling w).2 = Ok tt
  /\ isPollingActive w' = false
  /\ readCount w' = 0
  /\ pollingStartTime w' = None
  /\ pollingTimers w' = ∅
  /\ intervals w' = ∅
  /\ plc_cache w' = plc_cache w
  /\ getPollingMetrics w' = zero
  /\ (forall evs, Forall (fun ev => ev <> EvStartPolling) evs ->
        idle (run policy w' evs) /\ getPollingMetrics (run policy w' evs) = zero)
  /\ (forall evs, Forall background evs ->
        plc_cache (run policy w' evs) = plc_cache w)
  /\ (forall w0 : World Link, isPollingActive w0 = false -> stopPolling w0 = (w0, Ok tt)).
Proof.
  intros Hwf Hact w' zero. subst w'. rewrite stopPolling_run, Hact. simpl.
  rewrite (clear_all_ok _ _ _ Hwf).
  match goal with |- context [run policy ?w0 _] => set (w' := w0) end.
  assert (Hidle : idle w') by done.
  do 7 (split; [done |]). split; [done |]. split; [| split].
  - intros evs Hall.
    pose proof (run_idle w' evs Hall Hidle) as Hidle'.
    split; [done |]. destruct Hidle' as (Hstopped & _).
    unfold getPollingMetrics. by rewrite Hstopped.
  - intros evs Hall. by rewrite idle_background_run.
  - intros w0 Hstopped. by rewrite stopPolling_run, Hstopped.
Qed.

(** [C7] [unregisterDataPoint] cancels the timer of the key before it
    asks the store to delete the definition, whether the service is
    polling or not and whether the store then deletes or refuses:
    afterwards the key has no entry in the timer map and no live
    interval polls it, the timers of other keys are as before, and the
    cache is untouched, so the last cache row of the key stays
    readable.  No timer firing later changes that row; and once the
    definition is deleted nothing changes it, whatever is requested of
    the service, until the key is registered again. *)
Theorem unregisterDataPoint_stops_key key w w' r :
  timers_wf w ->
  unregisterDataPoint policy key w = (w', r) ->
  pollingTimers w' !! key = None
  /\ no_timer_for key w'
  /\ timers_wf w'
  /\ (forall other, other <> key -> pollingTimers w' !! other = pollingTimers w !! other)
  /\ isPollingActive w' = isPollingActive w
  /\ data_point w' = match r with
                     | Ok _ => delete key (data_point w)
                     | Throw _ => data_point w
                     end
  /\ plc_cache w' = plc_cache w
  /\ getCacheItem key w' = (w', Ok (plc_cache w !! key))
  /\ (forall evs, Forall background evs ->
        plc_cache (run policy w' evs) !! key = plc_cache w !! key)
  /\ (r = Ok tt ->
      registry_ok (data_point w) ->
      forall evs, Forall (fun ev => ~ registers key ev) evs ->
        plc_cache (run policy w' evs) !! key = plc_cache w !! key).
Proof.
  intros Hwf. rewrite unregisterDataPoint_run.
  destruct (stopPollingForDataPoint_wf key w Hwf) as [Hwf0 Hnone0].
  destruct (stopPollingForDataPoint_inv key w) as (Ht & Hi & Hn & Ha & Hd & Hc).
  set (w0 := (stopPollingForDataPoint key w).1) in *.
  intros Hrun.
  assert (Hshape : pollingTimers w' = pollingTimers w0 /\ intervals w' = intervals w0
                   /\ nextTimer w' = nextTimer w0 /\ isPollingActive w' = isPollingActive w0
                   /\ plc_cache w' = plc_cache w0
                   /\ data_point w' = match r with
                                      | Ok _ => delete key (data_point w)
                                      | Throw _ => data_point w
                                      end).
  { destruct (delete_refused policy key (data_point w)); by simplify_eq. }
  clear Hrun. destruct Hshape as (Ht' & Hi' & Hn' & Ha' & Hc' & Hd').
  assert (Hnone : no_timer_for key w').
  { unfold no_timer_for. by rewrite Hi'. }
  split; [rewrite Ht', Ht; apply lookup_delete_eq |]. split; [done |].
  split; [revert Hwf0; by apply timers_wf_frame |].
  split; [intros other Hne; rewrite Ht', Ht; by apply lookup_delete_ne |].
  split; [congruence |]. split; [done |]. split; [congruence |].
  split; [unfold getCacheItem, findCache, gets; congruence |]. split.
  - intros evs Hall. rewrite background_run_keeps by done. congruence.
  - intros -> Hreg evs Hall. rewrite run_retired; [congruence | done |].
    split; [done |]. rewrite Hd'. split.
    + apply lookup_delete_eq.
    + intros k dp [_ Hk]%lookup_delete_Some. by apply Hreg.
Qed.

(** [C9] At most one live interval polls a key, in every state the
    service can reach.  The timer map and the live intervals describe
    each other from the start and after every event (start, stop,
    register, unregister, write, a timer firing); and activating
    polling for a key clears the timer the key had, so the new interval
    is the only one left for the key, also when a key that has a timer
    is registered again while the service is polling.  Each block of
    code that touches the timers ([startPollingForDataPoint],
    [stopPollingForDataPoint], [stopPolling]) runs without an [await]
    and keeps the invariant by itself, and a poll does not touch the
    timers. *)
Theorem one_timer_per_key_invariant :
  (forall (link : Link) registry cache t0 evs,
     timers_wf (run policy (boot link registry cache t0) evs)
     /\ one_timer_per_key (run policy (boot link registry cache t0) evs))
  /\ (forall w ev, timers_wf w -> timers_wf (step policy w ev))
  /\ (forall w, timers_wf w -> one_timer_per_key w)
  /\ (forall dataPoint w,
        timers_wf w ->
        let w' := (startPollingForDataPoint dataPoint w).1 in
        pollingTimers w' !! DataPoint.key dataPoint = Some (nextTimer w)
        /\ intervals w' !! nextTimer w = Some dataPoint
        /\ (forall old, pollingTimers w !! DataPoint.key dataPoint = Some old ->
              intervals w' !! old = None)
        /\ (forall timer dp, intervals w' !! timer = Some dp ->
              DataPoint.key dp = DataPoint.key dataPoint -> timer = nextTimer w))
  /\ (forall dto w w' saved,
        timers_wf w ->
        isPollingActive w = true ->
        registerDataPoint policy dto w = (w', Ok saved) ->
        pollingTimers w' !! RegisterDataPointDto.key dto = Some (nextTimer w)
        /\ intervals w' !! nextTimer w = Some saved
        /\ (forall old, pollingTimers w !! RegisterDataPointDto.key dto = Some old ->
              intervals w' !! old = None)
        /\ (forall timer dp, intervals w' !! timer = Some dp ->
              DataPoint.key dp = RegisterDataPointDto.key dto -> timer = nextTimer w))
  /\ (forall dataPoint key w,
        timers_wf w ->
        timers_wf (startPollingForDataPoint dataPoint w).1
        /\ timers_wf (stopPollingForDataPoint key w).1
        /\ timers_wf (stopPolling w).1
        /\ timers_wf (pollDataPoint dataPoint w).1).
Proof.
  assert (Hunique : forall w, timers_wf w -> one_timer_per_key w).
  { intros w Hwf t1 t2 dp1 dp2. exact (timers_ok_unique _ _ _ t1 t2 dp1 dp2 Hwf). }
  split; [| split; [| split; [| split; [| split]]]]; cycle 5.
  { intros dataPoint key w Hwf.
    split; [by apply startPollingForDataPoint_wf |].
    split; [by apply stopPollingForDataPoint_wf |].
    split; [exact (step_wf w EvStopPolling Hwf) |].
    destruct (pollDataPoint dataPoint w) as [w' r] eqn:Hpoll.
    by destruct (pollDataPoint_inv _ _ _ _ Hpoll) as (_ & link & count & row & -> & _). }
  - intros link registry cache t0 evs.
    assert (Hwf : timers_wf (run policy (boot link registry cache t0) evs))
      by apply run_wf, boot_wf.
    split; [done | by apply Hunique].
  - intros w ev. apply step_wf.
  - done.
  - intros dataPoint w. apply startPollingForDataPoint_replaces.
  - intros dto w w' saved Hwf Hact. rewrite registerDataPoint_run, Hact.
    destruct (create_refused policy _ _); [done |]. simpl. intros [= <- <-].
    match goal with
    | |- context [startPollingForDataPoint _ ?w0] =>
        apply (startPollingForDataPoint_replaces (newDataPoint dto) w0)
    end.
    done.
Qed.

End ServiceFacts.

(** ** The theorems at work on the simulated service *)

Lemma pollDataPoint_records_failure_witness :
  pollDataPoint Sim.bogus Sim.polling
  = (set_plc_cache
       (<["bogus" := {| PlcCache.key := "bogus";
                        PlcCache.value := VNumbers [];
                        PlcCache.timestamp := 1500;
                        PlcCache.error := Some "Invalid address type: Q" |}]>
          (plc_cache Sim.polling)) Sim.polling,
     Ok tt).
Proof.
  assert (Htry : pollDataPoint_try Sim.bogus Sim.polling
                 = (Sim.polling, Throw (BadRequestException "Invalid address type: Q")))
    by (vm_compute; reflexivity).
  exact (proj1 (pollDataPoint_records_failure Sim.bogus Sim.polling _ _ Htry)).
Defined.

Lemma writeData_failure_keeps_cache_witness :
  exists w' e,
    writeData "temp" (VNumbers [1; 2]) Sim.unplugged = (w', Throw e)
    /\ plc_cache w' = plc_cache Sim.unplugged.
Proof.
  assert (Hrun : writeData "temp" (VNumbers [1; 2]) Sim.unplugged
                 = (Sim.unplugged, Throw (Error "PLC not connected")))
    by (vm_compute; reflexivity).
  exists Sim.unplugged, (Error "PLC not connected").
  split; [exact Hrun |].
  exact (proj1 (writeData_failure_keeps_cache "temp" (VNumbers [1; 2]) _ _ _ Hrun)).
Defined.

(** A bool written to the number-array key ["temp"] is refused and the
    world stays as it was. *)
Example writeData_bool_to_numbers :
  writeData "temp" (VBool true) Sim.polling
  = (Sim.polling, Throw (BadRequestException "Value must be number array for temp")).
Proof. vm_compute. reflexivity. Qed.

(** [C3, as stated, fails] The service is polling, the link is down,
    the timer of ["temp"] fires: the poll fails, its error is recorded,
    and [readCount] is still what it was. *)
Lemma readCount_unchanged_by_failed_poll :
  isPollingActive Sim.unplugged = true
  /\ intervals Sim.unplugged !! 0%nat = Some (newDataPoint Sim.temp)
  /\ PlcCache.error <$> plc_cache (fire 0 Sim.unplugged).1 !! "temp"
     = Some (Some "PLC not connected")
  /\ readCount Sim.unplugged = 1
  /\ readCount (fire 0 Sim.unplugged).1 = 1
  /\ readCount (fire 0 Sim.unplugged).1 <> readCount Sim.unplugged + 1.
Proof. vm_compute. repeat split; discriminate. Qed.

Lemma readCount_counts_successful_polls_witness :
  exists row,
    plc_cache (pollDataPoint (newDataPoint Sim.temp) Sim.polling).1 !! "temp" = Some row
    /\ match PlcCache.error row with
       | None =>
           readCount (pollDataPoint (newDataPoint Sim.temp) Sim.polling).1
           = readCount Sim.polling + 1
       | Some _ =>
           readCount (pollDataPoint (newDataPoint Sim.temp) Sim.polling).1
           = readCount Sim.polling
       end.
Proof.
  assert (Hrun : pollDataPoint (newDataPoint Sim.temp) Sim.polling
                 = ((pollDataPoint (newDataPoint Sim.temp) Sim.polling).1, Ok tt))
    by (vm_compute; reflexivity).
  exact (readCount_counts_successful_polls _ _ _ _ Hrun).
Defined.



Lemma startPolling_idempotent_witness :
  startPolling (startPolling Sim.unplugged).1 = ((startPolling Sim.unplugged).1, Ok tt)
  /\ startPolling (startPolling (run Sim.policy Sim.fresh [EvRegister Sim.temp])).1
     = ((startPolling (run Sim.policy Sim.fresh [EvRegister Sim.temp])).1, Ok tt).
Proof.
  split.
  - assert (Hrun : startPolling Sim.unplugged = ((startPolling Sim.unplugged).1, Ok tt))
      by (vm_compute; reflexivity).
    exact (proj2 (proj1 (proj2 (startPolling_idempotent _ _ _ Hrun)) eq_refl)).
  - assert (Hrun : startPolling (run Sim.policy Sim.fresh [EvRegister Sim.temp])
                   = ((startPolling (run Sim.policy Sim.fresh [EvRegister Sim.temp])).1,
                      Ok tt))
      by (vm_compute; reflexivity).
    exact (proj2 (proj1 (proj2 (startPolling_idempotent _ _ _ Hrun)) eq_refl)).
Defined.

Lemma polling_wf : timers_wf Sim.polling.
Proof. apply run_wf, boot_wf. Qed.

Lemma stopPolling_resets_witness :
  intervals (stopPolling Sim.polling).1 = ∅
  /\ getPollingMetrics
       (run Sim.policy (stopPolling Sim.polling).1 [EvElapse 5000; EvTimer 0%nat])
     = {| metrics_readCount := 0; readsPerSecond := 0; elapsedSeconds := 0 |}.
Proof.
  assert (Hactive : isPollingActive Sim.polling = true) by (vm_compute; reflexivity).
  pose proof (stopPolling_resets Sim.policy Sim.polling polling_wf Hactive)
    as (_ & _ & _ & _ & _ & Hlive & _ & _ & Hlater & _).
  split; [exact Hlive |].
  apply Hlater. repeat constructor; discriminate.
Defined.

Lemma unregisterDataPoint_stops_key_witness :
  pollingTimers (unregisterDataPoint Sim.policy "temp" Sim.polling).1 !! "temp" = None
  /\ plc_cache (unregisterDataPoint Sim.policy "temp" Sim.polling).1
     = plc_cache Sim.polling.
Proof.
  assert (Hrun : unregisterDataPoint Sim.policy "temp" Sim.polling
                 = ((unregisterDataPoint Sim.policy "temp" Sim.polling).1, Ok tt))
    by (vm_compute; reflexivity).
  pose proof (unregisterDataPoint_stops_key Sim.policy "temp" _ _ _ polling_wf Hrun)
    as (Hgone & _ & _ & _ & _ & _ & Hcache & _).
  split; [exact Hgone | exact Hcache].
Defined.

Lemma one_timer_per_key_invariant_witness :
  one_timer_per_key
    (run Sim.policy (boot Sim.online ∅ ∅ 0)
         [EvRegister Sim.temp; EvStartPolling; EvUnregister "temp"; EvRegister Sim.temp;
          EvTimer 1%nat; EvStopPolling; EvStartPolling]).
Proof.
  exact (proj2 (proj1 (one_timer_per_key_invariant Sim.policy) Sim.online ∅ ∅ 0 _)).
Defined.

Lemma getDeviceCode_case_insensitive_witness :
  getDeviceCode (Link := Sim.Link) "q"
  = Throw (BadRequestException "Invalid address type: q")
  /\ getDeviceCode (Link := Sim.Link) "d" = getDeviceCode (Link := Sim.Link) "D".
Proof.
  split.
  - assert (Hnot : toUpperCase "q" ∉ ["D"; "R"; "M"; "X"; "Y"]) by compute_done.
    exact (proj1 (proj2 (proj2 (proj2
             (getDeviceCode_case_insensitive (Link := Sim.Link) "q"))) Hnot)).
  - assert (Hsame : toUpperCase "D" = toUpperCase "d") by reflexivity.
    assert (Hlower : getDeviceCode (Link := Sim.Link) "d" = Ok DeviceCode.D)
      by (vm_compute; reflexivity).
    rewrite (proj2 (proj1 (getDeviceCode_case_insensitive (Link := Sim.Link) "d")
                      "D" DeviceCode.D Hsame) Hlower).
    exact Hlower.
Defined.

(** ** Tag rendering *)

Module TagFacts.
Import Codec Tags CodecFacts.

Lemma safe_Some (dsValues : list Z) idx w :
  safe dsValues idx = Some w ->
  0 <= idx < Z.of_nat (length dsValues) /\ dsValues !! Z.to_nat idx = Some w.
Proof.
  unfold safe. destruct (0 <=? idx) eqn:Hlo; [| done].
  destruct (idx <? Z.of_nat (length dsValues)) eqn:Hhi; [| done].
  simpl. intros Hw. split; [lia | done].
Qed.

Lemma safe_None (dsValues : list Z) idx :
  safe dsValues idx = None <-> ~ (0 <= idx < Z.of_nat (length dsValues)).
Proof.
  unfold safe. destruct (0 <=? idx) eqn:Hlo; [| simpl; split; [lia | done]].
  destruct (idx <? Z.of_nat (length dsValues)) eqn:Hhi; simpl; [| split; [lia | done]].
  split; [| lia]. intros Hnone. apply lookup_ge_None in Hnone. lia.
Qed.

Lemma not_empty (dsValues : list Z) idx w :
  safe dsValues idx = Some w -> (Z.of_nat (length dsValues) =? 0) = false.
Proof. intros [Hidx _]%safe_Some. lia. Qed.

Lemma shift_count n : 0 <= n <= 31 -> Z.land n 31 = n.
Proof.
  intros Hn. change 31 with (Z.ones 5).
  rewrite Z.land_ones by lia. apply Z.mod_small. simpl. lia.
Qed.

(** Shifting a signed 32-bit number to the right keeps it one. *)
Lemma shiftr_int32 x k :
  -2147483648 <= x < 2147483648 -> 0 <= k ->
  -2147483648 <= Z.shiftr x k < 2147483648.
Proof.
  intros Hx Hk. rewrite Z.shiftr_div_pow2 by done.
  assert (0 < 2 ^ k) by (apply Z.pow_pos_nonneg; lia).
  split.
  - apply Z.div_le_lower_bound; [done |]. nia.
  - apply Z.div_lt_upper_bound; [done |]. nia.
Qed.

(** [(w >> n) & 1] is the bit [n mod 32] of [w] as a 32-bit number. *)
Lemma js_bit w n :
  js_and (js_shr w n) 1 = Z.b2z (Z.testbit (ToInt32 w) (Z.land n 31)).
Proof.
  unfold js_and, js_shr.
  assert (Hk : 0 <= Z.land n 31) by (apply Z.land_nonneg; lia).
  pose proof (shiftr_int32 _ _ (ToInt32_range w) Hk) as Hs.
  rewrite (ToInt32_id (Z.shiftr _ _)) by done.
  rewrite (ToInt32_id 1) by lia.
  change 1 with (Z.ones 1) at 1. rewrite Z.land_ones by lia.
  change (2 ^ 1) with 2. rewrite <- Z.bit0_mod, Z.shiftr_spec by lia. simpl.
  rewrite ToInt32_id; [done |]. by destruct (Z.testbit _ _).
Qed.

Lemma js_bit_word w n :
  0 <= w < 2147483648 -> 0 <= n <= 31 ->
  (js_and (js_shr w n) 1 =? 1) = Z.testbit w n.
Proof.
  intros Hw Hn. rewrite js_bit, shift_count, ToInt32_id by lia.
  by destruct (Z.testbit w n).
Qed.

Lemma lxor_word w b :
  0 <= w < 65536 -> 0 <= b <= 15 -> 0 <= Z.lxor w (2 ^ b) < 65536.
Proof.
  intros Hw Hb.
  assert (Hp : 0 < 2 ^ b < 65536).
  { split; [apply Z.pow_pos_nonneg; lia |].
    change 65536 with (2 ^ 16). apply Z.pow_lt_mono_r; lia. }
  split; [apply Z.lxor_nonneg; lia |].
  destruct (Z.eq_dec (Z.lxor w (2 ^ b)) 0) as [-> | Hne]; [lia |].
  change 65536 with (2 ^ 16). apply Z.log2_lt_pow2.
  - assert (0 <= Z.lxor w (2 ^ b)) by (apply Z.lxor_nonneg; lia). lia.
  - eapply Z.le_lt_trans; [apply Z.log2_lxor; lia |].
    apply Z.max_lub_lt.
    + destruct (Z.eq_dec w 0) as [-> | ?]; [simpl; lia |]. apply Z.log2_lt_pow2; lia.
    + apply Z.log2_lt_pow2; lia.
Qed.

Lemma testbit_flip w b n :
  0 <= b -> 0 <= n ->
  Z.testbit (Z.lxor w (2 ^ b)) n = if decide (n = b) then negb (Z.testbit w n) else Z.testbit w n.
Proof.
  intros Hb Hn. rewrite Z.lxor_spec, Z.pow2_bits_eqb by done.
  case_decide as Heq.
  - subst. rewrite Z.eqb_refl. by destruct (Z.testbit w b).
  - rewrite (proj2 (Z.eqb_neq b n)) by done. by destruct (Z.testbit w n).
Qed.

Lemma render_bool tag dsValues w :
  Tag.dataType tag = "bool" ->
  safe dsValues (Tag.offset tag) = Some w ->
  renderTagValue tag (Some dsValues)
  = RText (if js_and (js_shr w (default 0 (Tag.bitPosition tag))) 1 =? 1
           then "ON" else "OFF").
Proof.
  intros Hty Hw. unfold renderTagValue.
  rewrite (not_empty _ _ _ Hw), Hty, Hw. done.
Qed.

(** [X1] A bool tag shows one bit of its word: for a 16-bit word and a
    bit position from 0 to 15 it reads ["ON"] exactly when that bit is
    set; flipping bit [b] of the word changes what a tag on bit [b]
    shows and nothing of what a tag on another bit shows. *)
Theorem bool_tag_reads_one_bit tag dsValues flipped w b :
  Tag.dataType tag = "bool" ->
  0 <= default 0 (Tag.bitPosition tag) <= 15 ->
  0 <= b <= 15 ->
  0 <= w < 65536 ->
  safe dsValues (Tag.offset tag) = Some w ->
  safe flipped (Tag.offset tag) = Some (Z.lxor w (2 ^ b)) ->
  renderTagValue tag (Some dsValues)
  = RText (if Z.testbit w (default 0 (Tag.bitPosition tag)) then "ON" else "OFF")
  /\ (default 0 (Tag.bitPosition tag) = b ->
      renderTagValue tag (Some flipped) <> renderTagValue tag (Some dsValues))
  /\ (default 0 (Tag.bitPosition tag) <> b ->
      renderTagValue tag (Some flipped) = renderTagValue tag (Some dsValues)).
Proof.
  intros Hty Hbit Hb Hw Hword Hflipped.
  pose proof (lxor_word w b Hw Hb) as Hw'.
  rewrite (render_bool _ _ _ Hty Hword), (render_bool _ _ _ Hty Hflipped).
  rewrite !js_bit_word by lia.
  rewrite testbit_flip by lia.
  split; [done |]. split.
  - intros Heq. rewrite decide_True by done. by destruct (Z.testbit w _).
  - intros Hne. by rewrite decide_False.
Qed.

Lemma bool_tag_reads_one_bit_witness :
  renderTagValue (Tag.mk "door" 1 1 "bool" None (Some 3)) (Some [0; 8; 0]) = RText "ON"
  /\ renderTagValue (Tag.mk "door" 1 1 "bool" None (Some 3)) (Some [0; 0; 0])
     <> renderTagValue (Tag.mk "door" 1 1 "bool" None (Some 3)) (Some [0; 8; 0]).
Proof.
  pose proof (bool_tag_reads_one_bit (Tag.mk "door" 1 1 "bool" None (Some 3))
                [0; 8; 0] [0; 0; 0] 8 3
                eq_refl ltac:(simpl; lia) ltac:(lia) ltac:(lia) eq_refl eq_refl)
    as (Hshown & Hflip & _).
  split; [exact Hshown | exact (Hflip eq_refl)].
Defined.

(** [X2] An int16 tag shows its 16-bit word as a two's complement
    number: the result lies between -32768 and 32767, is congruent to
    the word modulo 65536, and is negative exactly when bit 15 of the
    word is set. *)
Theorem int16_tag_twos_complement tag dsValues w :
  Tag.dataType tag = "int16" ->
  safe dsValues (Tag.offset tag) = Some w ->
  0 <= w < 65536 ->
  exists v,
    renderTagValue tag (Some dsValues) = RNumber v
    /\ -32768 <= v <= 32767
    /\ v mod 65536 = w
    /\ (v < 0 <-> Z.testbit w 15 = true).
Proof.
  intros Hty Hword Hw.
  assert (Hbit : Z.testbit w 15 = (32767 <? w)).
  { rewrite Z.testbit_eqb by lia. change (2 ^ 15) with 32768.
    destruct (32767 <? w) eqn:Hcmp.
    - apply Z.ltb_lt in Hcmp.
      replace (w / 32768) with 1; [done |].
      apply Z.div_unique with (w - 32768); lia.
    - apply Z.ltb_ge in Hcmp. by rewrite Z.div_small by lia. }
  rewrite Hbit. unfold renderTagValue.
  rewrite (not_empty _ _ _ Hword), Hty, Hword. simpl.
  destruct (32767 <? w) eqn:Hcmp; eexists; (split; [done |]).
  - apply Z.ltb_lt in Hcmp. split; [lia |]. split; [| split; [done | lia]].
    symmetry. apply Z.mod_unique with (-1); lia.
  - apply Z.ltb_ge in Hcmp. split; [lia |]. split; [| split; [lia | done]].
    apply Z.mod_small. lia.
Qed.

Lemma int16_tag_twos_complement_witness :
  renderTagValue (Tag.mk "speed" 1 0 "int16" None None) (Some [65535]) = RNumber (-1).
Proof.
  destruct (int16_tag_twos_complement (Tag.mk "speed" 1 0 "int16" None None)
              [65535] 65535 eq_refl eq_refl ltac:(lia))
    as (v & Hshown & Hrange & Hword & _).
  rewrite Hshown. f_equal.
  pose proof (Z.div_mod v 65536 ltac:(lia)). lia.
Defined.

Lemma render_int32 tag dsValues :
  Tag.dataType tag = "int32" ->
  dsValues <> [] ->
  renderTagValue tag (Some dsValues)
  = match renderTagValue_int32 (Tag.offset tag) dsValues with
    | None => RText "N/A"
    | Some val => RNumber val
    end.
Proof.
  intros Hty Hne. unfold renderTagValue.
  destruct dsValues as [| w0 rest]; [done |]. by rewrite Hty.
Qed.

(** [X3] What a tag shows when its words are missing.  Without values,
    or with an empty block, every tag shows ["-"].  On a block with
    words, an int16 or bool tag shows ["N/A"] exactly when its offset
    is outside the block, an int32 or real tag exactly when one of its
    two words is, and a tag of an unknown type always. *)
Theorem tag_unavailable tag (dsValues : list Z) :
  renderTagValue tag None = RText "-"
  /\ renderTagValue tag (Some []) = RText "-"
  /\ (dsValues <> [] ->
      let offset := Tag.offset tag in
      let len := Z.of_nat (length dsValues) in
      (Tag.dataType tag = "int16" \/ Tag.dataType tag = "bool" ->
       renderTagValue tag (Some dsValues) = RText "N/A" <-> ~ (0 <= offset < len))
      /\ (Tag.dataType tag = "int32" \/ Tag.dataType tag = "real" ->
          renderTagValue tag (Some dsValues) = RText "N/A"
          <-> ~ (0 <= offset /\ offset + 1 < len))
      /\ (Tag.dataType tag ∉ ["int16"; "int32"; "real"; "bool"; "string"] ->
          renderTagValue tag (Some dsValues) = RText "N/A")).
Proof.
  split; [done |]. split; [done |]. intros Hne. cbv zeta.
  assert (Hlen : (Z.of_nat (length dsValues) =? 0) = false).
  { apply Z.eqb_neq. destruct dsValues; [done |]. rewrite length_cons. lia. }
  assert (Hpair : (safe dsValues (Tag.offset tag) = None
                   \/ safe dsValues (Tag.offset tag + 1) = None)
                  <-> ~ (0 <= Tag.offset tag
                         /\ Tag.offset tag + 1 < Z.of_nat (length dsValues))).
  { rewrite !safe_None. lia. }
  split; [| split].
  - intros Hty. rewrite <- safe_None. unfold renderTagValue. rewrite Hlen.
    destruct Hty as [-> | ->]; simpl;
      destruct (safe dsValues (Tag.offset tag)); split; intros; by try case_match.
  - intros Hty. rewrite <- Hpair. clear Hpair Hne. unfold renderTagValue. rewrite Hlen.
    clear Hlen.
    destruct Hty as [-> | ->]; simpl; unfold renderTagValue_int32;
      destruct (safe dsValues (Tag.offset tag)), (safe dsValues (Tag.offset tag + 1));
      simpl; (split; [intros ?; first [done | by left | by right] | intros [? | ?]; done]).
  - intros Hty. unfold renderTagValue. rewrite Hlen. clear Hpair Hlen Hne.
    repeat case_decide; try done; exfalso; apply Hty; set_solver.
Qed.

Lemma tag_unavailable_witness :
  renderTagValue (Tag.mk "speed" 1 2 "int32" None None) (Some [1; 2; 3]) = RText "N/A".
Proof.
  destruct (tag_unavailable (Tag.mk "speed" 1 2 "int32" None None) [1; 2; 3])
    as (_ & _ & Hblock).
  destruct (Hblock ltac:(discriminate)) as (_ & Hpair & _).
  apply Hpair; [by left |]. simpl. lia.
Defined.

(** [X4] An int32 tag puts the word at its offset below the next one:
    for two 16-bit words [lo], [hi] it shows [lo + 65536 * hi], with
    [hi] read as a signed 16-bit number.  The result is a signed 32-bit
    number, negative exactly when bit 15 of [hi] is set, and both words
    can be read back from it, so different pairs show different
    numbers.  Whatever the words are, the result never leaves the
    signed 32-bit range. *)
Theorem int32_tag_words tag dsValues lo hi :
  Tag.dataType tag = "int32" ->
  safe dsValues (Tag.offset tag) = Some lo ->
  safe dsValues (Tag.offset tag + 1) = Some hi ->
  0 <= lo < 65536 ->
  0 <= hi < 65536 ->
  let v := lo + 65536 * (if hi <? 32768 then hi else hi - 65536) in
  renderTagValue tag (Some dsValues) = RNumber v
  /\ -2147483648 <= v <= 2147483647
  /\ (v < 0 <-> 32768 <= hi)
  /\ v mod 65536 = lo
  /\ (v / 65536) mod 65536 = hi
  /\ (forall offset (words : list Z) val,
        renderTagValue_int32 offset words = Some val ->
        -2147483648 <= val <= 2147483647).
Proof.
  intros Hty Hlo Hhi Hlo16 Hhi16 v.
  set (q := if hi <? 32768 then hi else hi - 65536) in *.
  assert (Hq : -32768 <= q < 32768 /\ q mod 65536 = hi).
  { subst q. destruct (hi <? 32768) eqn:Hcmp.
    - apply Z.ltb_lt in Hcmp. split; [lia | apply Z.mod_small; lia].
    - apply Z.ltb_ge in Hcmp. split; [lia |].
      symmetry. apply Z.mod_unique with (-1); lia. }
  destruct Hq as [Hq Hqhi].
  assert (Hdiv : v / 65536 = q).
  { symmetry. apply Z.div_unique with lo; [lia | subst v; lia]. }
  split; [| split; [subst v; lia | split; [| split; [| split]]]].
  - unfold renderTagValue. rewrite (not_empty _ _ _ Hlo), Hty. simpl.
    unfold renderTagValue_int32. rewrite Hlo, Hhi.
    rewrite <- Hqhi, CodecRoundTrip.js_shl_high by done.
    unfold js_or.
    rewrite (ToInt32_id (q * 65536)), (ToInt32_id lo) by lia.
    rewrite lor_high_low by lia. rewrite ToInt32_id by lia.
    destruct (2147483647 <? q * 65536 + lo) eqn:Hcmp;
      [apply Z.ltb_lt in Hcmp; lia |].
    f_equal. subst v. lia.
  - subst v q. destruct (hi <? 32768) eqn:Hcmp;
      [apply Z.ltb_lt in Hcmp | apply Z.ltb_ge in Hcmp]; lia.
  - symmetry. apply Z.mod_unique with q; [lia | subst v; lia].
  - by rewrite Hdiv.
  - intros offset words val. unfold renderTagValue_int32.
    destruct (safe words offset) as [l |]; [| done].
    destruct (safe words (offset + 1)) as [h |]; [| done].
    intros [= <-].
    pose proof (ToInt32_range (Z.lor (ToInt32 (js_shl h 16)) (ToInt32 l))) as Hrange.
    fold (js_or (js_shl h 16) l) in Hrange.
    destruct (2147483647 <? js_or (js_shl h 16) l) eqn:Hcmp;
      [apply Z.ltb_lt in Hcmp |]; lia.
Qed.

Lemma int32_tag_words_witness :
  renderTagValue (Tag.mk "position" 1 1 "int32" None None) (Some [7; 65535; 65535])
  = RNumber (-1).
Proof.
  exact (proj1 (int32_tag_words (Tag.mk "position" 1 1 "int32" None None)
                  [7; 65535; 65535] 65535 65535
                  eq_refl eq_refl eq_refl ltac:(lia) ltac:(lia))).
Defined.








Lemma render_bool_cases tag dsValues :
  Tag.dataType tag = "bool" ->
  renderTagValue tag dsValues ∈ [RText "-"; RText "N/A"; RText "ON"; RText "OFF"].
Proof.
  intros Hty. unfold renderTagValue.
  destruct dsValues as [dsValues |]; [| set_solver].
  destruct (Z.of_nat (length dsValues) =? 0); [set_solver |].
  rewrite Hty. simpl.
  destruct (safe dsValues (Tag.offset tag)) as [w |]; [| set_solver].
  destruct (js_and _ _ =? 1); set_solver.
Qed.

(** [X6] Editing a bool tag without touching the text writes back what
    the tag shows: the value [writeTag] sends for the text that
    [startEditTag] puts into the field is [true] exactly when the tag
    shows ["ON"]; a tag without a value is written as [false]. *)
Theorem bool_tag_edit_round_trip (realText : Z -> Z -> string) tag dsValues :
  Tag.dataType tag = "bool" ->
  writeTag_bool (startEditTag realText tag dsValues)
  = bool_decide (renderTagValue tag dsValues = RText "ON").
Proof.
  intros Hty. unfold startEditTag.
  pose proof (render_bool_cases tag dsValues Hty) as Hcases.
  repeat (apply elem_of_cons in Hcases as [-> | Hcases]); [done .. |].
  by apply elem_of_nil in Hcases.
Qed.

Lemma bool_tag_edit_round_trip_witness :
  writeTag_bool
    (startEditTag (fun _ _ => "") (Tag.mk "door" 1 1 "bool" None (Some 3)) (Some [0; 8]))
  = true.
Proof.
  rewrite (bool_tag_edit_round_trip (fun _ _ => "")
             (Tag.mk "door" 1 1 "bool" None (Some 3)) (Some [0; 8]) eq_refl).
  vm_compute. reflexivity.
Defined.

End TagFacts.

(** ** More on the service *)

Section ServiceMore.
Context {Link : Type} `{!PlcCommunication Link}.
Variable policy : RegistryPolicy.

Implicit Types (w : World Link) (dataPoint : DataPoint.t).

(** *** One poll, one row *)

Lemma pollDataPoint_try_shape dataPoint w w1 :
  pollDataPoint_try dataPoint w = (w1, Ok tt) ->
  exists row,
    plc_cache w1 !! DataPoint.key dataPoint = Some row
    /\ PlcCache.key row = DataPoint.key dataPoint
    /\ PlcCache.timestamp row = now w
    /\ PlcCache.error row = None
    /\ shaped (DataPoint.type dataPoint) (PlcCache.value row)
    /\ DataPoint.type dataPoint ∈ ["number"; "string"; "bool"].
Proof.
  unfold pollDataPoint_try. unfold_svc. destruct w, dataPoint. simpl. intros Hrun.
  split_svc; eexists; (split; [apply lookup_insert_eq |]); simpl;
    repeat split; try done; set_solver.
Qed.

Lemma getEmptyValueForType_shaped type : shaped type (getEmptyValueForType type).
Proof. unfold getEmptyValueForType. repeat case_decide; done. Qed.

Lemma pollDataPoint_try_unknown_type dataPoint w w1 r :
  DataPoint.type dataPoint ∉ ["number"; "string"; "bool"] ->
  pollDataPoint_try dataPoint w = (w1, r) ->
  exists e, r = Throw e.
Proof.
  intros Hty Hrun. destruct r as [[] | e]; [| by eauto].
  apply pollDataPoint_try_shape in Hrun as (row & _ & _ & _ & _ & _ & Hin). done.
Qed.

(** [X7] Whatever a poll does, the cache row it leaves for the key has
    the shape of the definition's type: an array for a number
    definition, a boolean for a bool definition, a string for a string
    definition, both when the read went through and when it failed.
    The row carries the key and the time of the poll; a definition of
    any other type always gets the empty string and an error. *)
Theorem pollDataPoint_row_shape dataPoint w :
  exists w' row,
    pollDataPoint dataPoint w = (w', Ok tt)
    /\ plc_cache w' !! DataPoint.key dataPoint = Some row
    /\ PlcCache.key row = DataPoint.key dataPoint
    /\ PlcCache.timestamp row = now w
    /\ shaped (DataPoint.type dataPoint) (PlcCache.value row)
    /\ (DataPoint.type dataPoint ∉ ["number"; "string"; "bool"] ->
        PlcCache.value row = VString "" /\ is_Some (PlcCache.error row)).
Proof.
  destruct (pollDataPoint_try dataPoint w) as [w1 r] eqn:Htry.
  pose proof (pollDataPoint_outcome _ _ _ _ Htry) as Hpoll.
  destruct r as [[] | e].
  - destruct Hpoll as [Hpoll _].
    destruct (pollDataPoint_try_shape _ _ _ Htry)
      as (row & Hrow & Hkey & Htime & Herr & Hshape & Hty).
    exists w1, row. do 5 (split; [done |]). intros Hnot. done.
  - eexists _, _. split; [exact Hpoll |]. simpl.
    split; [apply lookup_insert_eq |]. simpl. do 2 (split; [done |]).
    split; [apply getEmptyValueForType_shaped |].
    intros Hnot. split; [| by eauto].
    unfold getEmptyValueForType.
    repeat case_decide; try done; exfalso; apply Hnot; set_solver.
Qed.

(** *** Isolation *)

Lemma fire_inv timer w :
  exists w',
    fire timer w = (w', Ok tt)
    /\ pollingTimers w' = pollingTimers w
    /\ intervals w' = intervals w
    /\ nextTimer w' = nextTimer w
    /\ isPollingActive w' = isPollingActive w
    /\ pollingStartTime w' = pollingStartTime w
    /\ data_point w' = data_point w
    /\ now w' = now w
    /\ readCount w <= readCount w' <= readCount w + 1
    /\ (forall key,
          (forall dataPoint, intervals w !! timer = Some dataPoint ->
             DataPoint.key dataPoint <> key) ->
          plc_cache w' !! key = plc_cache w !! key)
    /\ (intervals w !! timer = None -> w' = w).
Proof.
  rewrite fire_run.
  destruct (intervals w !! timer) as [dp |] eqn:Hlive.
  - destruct (pollDataPoint dp w) as [w' r] eqn:Hpoll.
    destruct (pollDataPoint_inv _ _ _ _ Hpoll)
      as (-> & link & count & row & -> & Hcount).
    unfold catch_and_log, try_catch. rewrite Hpoll.
    eexists. split; [done |]. simpl. do 7 (split; [done |]).
    split; [destruct (PlcCache.error row); lia |]. split; [| done].
    intros key Hother. rewrite lookup_insert_ne; [done |]. by apply Hother.
  - exists w. do 8 (split; [done |]). split; [lia |]. done.
Qed.

(** [X8] A timer firing touches nothing but the link, the read counter
    and the cache row of the key it polls: the timers, the registry,
    the scheduler's flags and every other cache row stay as they are,
    the call never throws, and [readCount] grows by at most one.  A
    handle that is not live does nothing at all. *)
Theorem fire_isolated timer w :
  exists w',
    fire timer w = (w', Ok tt)
    /\ pollingTimers w' = pollingTimers w
    /\ intervals w' = intervals w
    /\ nextTimer w' = nextTimer w
    /\ isPollingActive w' = isPollingActive w
    /\ pollingStartTime w' = pollingStartTime w
    /\ data_point w' = data_point w
    /\ now w' = now w
    /\ readCount w <= readCount w' <= readCount w + 1
    /\ (forall key,
          (forall dataPoint, intervals w !! timer = Some dataPoint ->
             DataPoint.key dataPoint <> key) ->
          plc_cache w' !! key = plc_cache w !! key)
    /\ (intervals w !! timer = None -> w' = w).
Proof. apply fire_inv. Qed.

(** [X9] A write touches nothing but the link and the cache row of its
    key: whether it goes through or throws, the timers, the registry,
    the scheduler's flags, [readCount] and every other cache row stay
    as they are. *)
Theorem writeData_isolated key value w w' r :
  writeData key value w = (w', r) ->
  pollingTimers w' = pollingTimers w
  /\ intervals w' = intervals w
  /\ nextTimer w' = nextTimer w
  /\ isPollingActive w' = isPollingActive w
  /\ pollingStartTime w' = pollingStartTime w
  /\ readCount w' = readCount w
  /\ data_point w' = data_point w
  /\ now w' = now w
  /\ (forall other, other <> key -> plc_cache w' !! other = plc_cache w !! other).
Proof.
  intros Hrun. destruct (writeData_inv _ _ _ _ _ Hrun) as [link Hinv].
  destruct r; subst w'; simpl; do 8 (split; [done |]); intros other Hne; [| done].
  by rewrite lookup_insert_ne.
Qed.

(** *** Metrics *)

(** [X10] While polling, the metrics are floors: [elapsedSeconds] is
    the number of whole seconds since the start, [readsPerSecond] is 0
    during the first second (no division by zero) and afterwards the
    whole part of [readCount / elapsedSeconds]; [readCount] is passed
    on as it is. *)
Theorem getPollingMetrics_floor w start :
  isPollingActive w = true ->
  pollingStartTime w = Some start ->
  let m := getPollingMetrics w in
  metrics_readCount m = readCount w
  /\ 1000 * elapsedSeconds m <= now w - start < 1000 * (elapsedSeconds m + 1)
  /\ (now w - start < 1000 -> readsPerSecond m = 0)
  /\ (1000 <= now w - start ->
      readsPerSecond m * elapsedSeconds m <= readCount w
      < (readsPerSecond m + 1) * elapsedSeconds m).
Proof.
  intros Hact Hstart m. subst m. unfold getPollingMetrics. rewrite Hact, Hstart. simpl.
  set (elapsed := (now w - start) / 1000).
  pose proof (Z.div_mod (now w - start) 1000 ltac:(lia)) as Hdm.
  pose proof (Z.mod_pos_bound (now w - start) 1000 ltac:(lia)) as Hmod.
  fold elapsed in Hdm.
  split; [done |]. split; [lia |]. split.
  - intros Hfirst. destruct (0 <? elapsed) eqn:Hpos; [apply Z.ltb_lt in Hpos; lia | done].
  - intros Hlater. assert (0 < elapsed) by lia.
    rewrite (proj2 (Z.ltb_lt 0 elapsed)) by done.
    pose proof (Z.div_mod (readCount w) elapsed ltac:(lia)) as Hrate.
    pose proof (Z.mod_pos_bound (readCount w) elapsed ltac:(lia)) as Hrem.
    nia.
Qed.

(** *** Starting *)

(** What [startPollingForDataPoint] leaves alone, and what its first
    poll does. *)
Lemma startPollingForDataPoint_poll dataPoint w :
  let w' := (startPollingForDataPoint dataPoint w).1 in
  pollingStartTime w' = pollingStartTime w
  /\ now w' = now w
  /\ readCount w <= readCount w' <= readCount w + 1
  /\ is_Some (plc_cache w' !! DataPoint.key dataPoint)
  /\ (forall other, other <> DataPoint.key dataPoint ->
        plc_cache w' !! other = plc_cache w !! other).
Proof.
  cbv zeta. destruct (startPollingForDataPoint dataPoint w) as [w' r0] eqn:Hrun.
  simpl. revert Hrun.
  unfold startPollingForDataPoint, bind at 1.
  rewrite stopPollingForDataPoint_run.
  unfold setInterval, modify, bind.
  match goal with
  | |- context [catch_and_log (pollDataPoint _) ?w0] =>
      destruct (pollDataPoint dataPoint w0) as [w1 r] eqn:Hpoll;
      destruct (pollDataPoint_inv _ _ _ _ Hpoll)
        as (-> & link & count & row & -> & Hcount)
  end.
  unfold catch_and_log, try_catch. rewrite Hpoll. intros [= <- <-].
  destruct (pollingTimers w !! DataPoint.key dataPoint); simpl in *;
    (do 2 (split; [done |]); split; [destruct (PlcCache.error row); lia |];
     split; [by rewrite lookup_insert_eq |];
     intros other Hne; by rewrite lookup_insert_ne).
Qed.

Lemma forEach_start_Ok dataPoints w :
  exists w', forEach dataPoints startPollingForDataPoint w = (w', Ok tt).
Proof.
  destruct (forEach_start_inv (fun _ => True) dataPoints w) as (w' & Hrun & _);
    [done .. |]. by exists w'.
Qed.

(** [X11] [startPolling] on a stopped service fails only when the link
    is down and cannot be brought up.  With an active connection it
    does not call [connect] and returns normally; when [connect] throws,
    that exception reaches the caller and the service is left stopped,
    with its timers, counters and cache untouched, so that the call can
    simply be made again. *)
Theorem startPolling_needs_connection w w' r :
  isPollingActive w = false ->
  startPolling w = (w', r) ->
  (isConnectionActive (communication w) = true -> r = Ok tt)
  /\ (isConnectionActive (communication w) = false ->
      forall link outcome,
        connect (communication w) = (link, outcome) ->
        match outcome with
        | Ok _ => r = Ok tt
        | Throw e => r = Throw e /\ w' = set_communication link w
        end)
  /\ (r = Ok tt -> isPollingActive w' = true /\ pollingStartTime w' = Some (now w))
  /\ (forall e, r = Throw e ->
        isPollingActive w' = false
        /\ pollingTimers w' = pollingTimers w
        /\ intervals w' = intervals w
        /\ readCount w' = readCount w
        /\ pollingStartTime w' = pollingStartTime w
        /\ data_point w' = data_point w
        /\ plc_cache w' = plc_cache w).
Proof.
  intros Hact Hrun.
  assert (Hloop : forall w0, exists w1,
    forEach (map_to_list (data_point w0)).*2 startPollingForDataPoint
      (set_pollingStartTime (Some (now w0))
         (set_readCount 0 (set_isPollingActive true w0))) = (w1, Ok tt)
    /\ isPollingActive w1 = true /\ pollingStartTime w1 = Some (now w0)).
  { intros w0.
    edestruct (forEach_start_inv
                 (fun w1 => isPollingActive w1 = true
                            /\ pollingStartTime w1 = Some (now w0)))
      as (w1 & Hrun1 & Hkeep); [| | by exists w1]; [| done].
    intros dp w2 _ [Ha Hs].
    destruct (startPollingForDataPoint_inv dp w2) as (w3 & Hrun3 & _ & _ & _ & Ha3 & _).
    destruct (startPollingForDataPoint_poll dp w2) as (Hs3 & _).
    rewrite Hrun3 in *. simpl in *. split; congruence. }
  revert Hrun. unfold startPolling. unfold bind at 1. unfold gets at 1. rewrite Hact.
  unfold bind at 1. unfold gets at 1. unfold bind at 1.
  destruct (isConnectionActive (communication w)) eqn:Hconn; simpl.
  - unfold_svc. simpl.
    destruct (Hloop w) as (w1 & Hrun1 & Ha1 & Hs1).
    rewrite Hrun1. intros [= <- <-]. by repeat split.
  - unfold comm at 1. destruct (connect (communication w)) as [link outcome] eqn:Hcall.
    destruct outcome as [[] | e].
    + unfold_svc. simpl.
      destruct (Hloop (set_communication link w)) as (w1 & Hrun1 & Ha1 & Hs1).
      simpl in Hrun1. rewrite Hrun1. intros [= <- <-].
      split; [done |]. split; [by intros _ l o [= <- <-] |]. by repeat split.
    + intros [= <- <-]. split; [done |].
      split; [by intros _ l o [= <- <-] |]. by repeat split.
Qed.

(** *** What holds in every state the service reaches *)








(** *** Timers and the registry *)










(** *** Registering and unregistering *)

(** [X15] Registering a key that is new to the service and then
    unregistering it, with the store accepting both, brings the
    registry, the timer map and the live intervals back to what they
    were, polling or not: the timer that a polling service starts for
    the new definition is the one that unregistering cancels. *)
Theorem register_unregister_round_trip dto w :
  timers_wf w ->
  data_point w !! RegisterDataPointDto.key dto = None ->
  pollingTimers w !! RegisterDataPointDto.key dto = None ->
  create_refused policy (newDataPoint dto) (data_point w) = None ->
  delete_refused policy (RegisterDataPointDto.key dto)
    (<[RegisterDataPointDto.key dto := newDataPoint dto]> (data_point w)) = None ->
  exists w1 w2,
    registerDataPoint policy dto w = (w1, Ok (newDataPoint dto))
    /\ data_point w1 !! RegisterDataPointDto.key dto = Some (newDataPoint dto)
    /\ (isPollingActive w = true ->
        exists timer, pollingTimers w1 !! RegisterDataPointDto.key dto = Some timer
                      /\ intervals w1 !! timer = Some (newDataPoint dto))
    /\ unregisterDataPoint policy (RegisterDataPointDto.key dto) w1 = (w2, Ok tt)
    /\ data_point w2 = data_point w
    /\ pollingTimers w2 = pollingTimers w
    /\ intervals w2 = intervals w
    /\ isPollingActive w2 = isPollingActive w.
Proof.
  intros Hwf Hnew Hnone Hcreate Hdelete.
  rewrite registerDataPoint_run, Hcreate. cbv zeta.
  set (key := RegisterDataPointDto.key dto) in *.
  set (w0 := set_data_point (<[key := newDataPoint dto]> (data_point w)) w).
  destruct (isPollingActive w) eqn:Hact.
  - destruct (startPollingForDataPoint_inv (newDataPoint dto) w0)
      as (w1 & Hrun & Htimers & Hlive & _ & Hact1 & Hreg1 & _).
    rewrite Hrun. simpl in *. fold key in Htimers, Hlive. rewrite Hnone in Hlive.
    assert (Hfresh : intervals w !! nextTimer w = None).
    { destruct (intervals w !! nextTimer w) as [d |] eqn:Hd; [| done].
      destruct Hwf as (_ & _ & Hlt). apply Hlt in Hd. lia. }
    exists w1. eexists. split; [done |].
    split; [rewrite Hreg1; apply lookup_insert_eq |].
    split.
    { intros _. exists (nextTimer w). rewrite Htimers, Hlive.
      by rewrite !lookup_insert_eq. }
    rewrite unregisterDataPoint_run, stopPollingForDataPoint_run.
    rewrite Htimers, lookup_insert_eq. simpl. rewrite Hreg1, Hdelete.
    split; [done |]. simpl. rewrite Hlive.
    split; [by apply delete_insert_id |].
    split; [by apply delete_insert_id |].
    split; [by apply delete_insert_id |]. by rewrite Hact1.
  - exists w0. eexists. split; [done |].
    split; [apply lookup_insert_eq |]. split; [done |].
    rewrite unregisterDataPoint_run, stopPollingForDataPoint_run.
    simpl. fold key. rewrite Hnone. simpl. rewrite Hdelete.
    split; [done |]. simpl.
    split; [by apply delete_insert_id |]. done.
Qed.

(** *** Shutting down *)


(** *** The controller *)

Lemma writeData_Ok_shaped key value dataPoint w w' :
  data_point w !! key = Some dataPoint ->
  writeData key value w = (w', Ok tt) ->
  shaped (DataPoint.type dataPoint) value.
Proof.
  unfold writeData. unfold_svc. intros ->. destruct w, dataPoint. simpl. intros Hrun.
  split_svc; simpl; done.
Qed.

Lemma controller_writeData_inv key body w w' resp :
  PlcController.writeData key body w = (w', resp) ->
  match data_point w !! key with
  | None =>
      w' = w /\ resp = NotFoundException ("Data point '" +:+ key +:+ "' not found")
  | Some definition =>
      match PlcController.bodyValue key (DataPoint.type definition) body with
      | Throw e => w' = w /\ resp = Failed e
      | Ok value =>
          exists r, writeData key value w = (w', r)
            /\ match r with
               | Throw e => resp = Failed e
               | Ok _ =>
                   shaped (DataPoint.type definition) value
                   /\ plc_cache w' !! key
                      = Some {| PlcCache.key := key; PlcCache.value := value;
                                PlcCache.timestamp := now w; PlcCache.error := None |}
                   /\ resp = Replied
                               ("Data written to PLC and saved to DB for " +:+ key,
                                {| PlcDataResponseDto.value := value;
                                   PlcDataResponseDto.timestamp := now w;
                                   PlcDataResponseDto.error := None |})
               end
      end
  end.
Proof.
  unfold PlcController.writeData, PlcController.call at 1.
  unfold getDataPoint, findDataPoint, gets.
  destruct (data_point w !! key) as [definition |] eqn:Hfind;
    [| by intros [= <- <-]].
  destruct (PlcController.bodyValue key (DataPoint.type definition) body)
    as [value | e]; [| by intros [= <- <-]].
  unfold PlcController.call at 1.
  destruct (writeData key value w) as [w1 [[] | e]] eqn:Hwrite.
  - pose proof (writeData_Ok_shaped _ _ _ _ _ Hfind Hwrite) as Hshape.
    destruct (writeData_inv _ _ _ _ _ Hwrite) as [link ->].
    unfold PlcController.call, getCacheItem, findCache, gets. simpl.
    rewrite lookup_insert_eq. unfold PlcController.reply. simpl.
    intros [= <- <-]. exists (Ok tt). split; [done |]. split; [done |].
    split; [apply lookup_insert_eq | done].
  - intros [= <- <-]. by exists (Throw e).
Qed.


(** [X18] Read after write: once the controller's [writeData] has
    replied for a key, [readData] for that key answers with the very
    entry the write replied with, and keeps doing so while timers of
    other keys fire, time passes or the link changes; [readData] itself
    changes nothing. *)
Theorem controller_read_after_write key body w w1 msg saved evs :
  PlcController.writeData key body w = (w1, Replied (msg, saved)) ->
  no_timer_for key w ->
  Forall background evs ->
  PlcController.readData key (run policy w1 evs)
  = (run policy w1 evs, Replied saved).
Proof.
  intros Hrun Hnone Hevs. apply controller_writeData_inv in Hrun.
  destruct (data_point w !! key) as [definition |]; [| by destruct Hrun].
  destruct (PlcController.bodyValue key (DataPoint.type definition) body)
    as [value | e]; [| by destruct Hrun].
  destruct Hrun as ([[] | e] & Hwrite & Hresp); [| done].
  destruct Hresp as (_ & Hrow & [= _ ->]).
  assert (Hnone1 : no_timer_for key w1).
  { destruct (writeData_inv _ _ _ _ _ Hwrite) as [link ->]. done. }
  pose proof (background_run_keeps policy key w1 evs Hevs Hnone1) as Hkeep.
  unfold PlcController.readData, PlcController.call, getCacheItem, findCache, gets.
  by rewrite Hkeep, Hrow.
Qed.

End ServiceMore.

(** ** The properties above on the simulated service *)

Lemma writeData_isolated_witness :
  pollingTimers (writeData "temp" (VNumbers [1; 2]) Sim.polling).1
  = pollingTimers Sim.polling
  /\ readCount (writeData "temp" (VNumbers [1; 2]) Sim.polling).1
     = readCount Sim.polling.
Proof.
  assert (Hrun : writeData "temp" (VNumbers [1; 2]) Sim.polling
                 = ((writeData "temp" (VNumbers [1; 2]) Sim.polling).1, Ok tt))
    by (vm_compute; reflexivity).
  pose proof (writeData_isolated _ _ _ _ _ Hrun) as (Htimers & _ & _ & _ & _ & Hcount & _).
  split; [exact Htimers | exact Hcount].
Defined.

Lemma getPollingMetrics_floor_witness :
  1000 * elapsedSeconds (getPollingMetrics Sim.polling)
  <= now Sim.polling - 0
  < 1000 * (elapsedSeconds (getPollingMetrics Sim.polling) + 1).
Proof.
  assert (Hactive : isPollingActive Sim.polling = true) by (vm_compute; reflexivity).
  assert (Hstart : pollingStartTime Sim.polling = Some 0) by (vm_compute; reflexivity).
  exact (proj1 (proj2 (getPollingMetrics_floor Sim.polling 0 Hactive Hstart))).
Defined.

Lemma startPolling_needs_connection_witness :
  (startPolling (boot Sim.offline ∅ ∅ 0)).2 = Throw (Error "connect ECONNREFUSED")
  /\ isPollingActive (startPolling (boot Sim.offline ∅ ∅ 0)).1 = false.
Proof.
  assert (Hstopped : isPollingActive (boot Sim.offline ∅ ∅ 0) = false) by reflexivity.
  assert (Hrun : startPolling (boot Sim.offline ∅ ∅ 0)
                 = ((startPolling (boot Sim.offline ∅ ∅ 0)).1,
                    (startPolling (boot Sim.offline ∅ ∅ 0)).2))
    by (by destruct (startPolling (boot Sim.offline ∅ ∅ 0))).
  pose proof (startPolling_needs_connection _ _ _ Hstopped Hrun)
    as (_ & Hdown & _ & Hfail).
  destruct (Hdown eq_refl Sim.offline (Throw (Error "connect ECONNREFUSED")) eq_refl)
    as [Hr _].
  split; [exact Hr |]. exact (proj1 (Hfail _ Hr)).
Defined.



Lemma register_unregister_round_trip_witness :
  exists w1 w2,
    registerDataPoint Sim.policy Sim.fast Sim.polling = (w1, Ok (newDataPoint Sim.fast))
    /\ unregisterDataPoint Sim.policy "fast" w1 = (w2, Ok tt)
    /\ intervals w2 = intervals Sim.polling.
Proof.
  assert (Hnew : data_point Sim.polling !! "fast" = None) by (vm_compute; reflexivity).
  assert (Hnone : pollingTimers Sim.polling !! "fast" = None) by (vm_compute; reflexivity).
  assert (Hcreate : create_refused Sim.policy (newDataPoint Sim.fast)
                      (data_point Sim.polling) = None) by (vm_compute; reflexivity).
  destruct (register_unregister_round_trip Sim.policy Sim.fast Sim.polling
              polling_wf Hnew Hnone Hcreate eq_refl)
    as (w1 & w2 & Hregister & _ & _ & Hunregister & _ & _ & Hlive & _).
  exists w1, w2. split; [exact Hregister |]. split; [exact Hunregister | exact Hlive].
Defined.


Lemma controller_read_after_write_witness :
  PlcController.readData "temp"
    (run Sim.policy
       (PlcController.writeData "temp"
          {| WriteBody.values := Some (VNumbers [7]); WriteBody.value := None |}
          (run Sim.policy Sim.fresh [EvRegister Sim.temp])).1
       [EvElapse 100; EvLink Sim.offline; EvTimer 0%nat])
  = (run Sim.policy
       (PlcController.writeData "temp"
          {| WriteBody.values := Some (VNumbers [7]); WriteBody.value := None |}
          (run Sim.policy Sim.fresh [EvRegister Sim.temp])).1
       [EvElapse 100; EvLink Sim.offline; EvTimer 0%nat],
     Replied {| PlcDataResponseDto.value := VNumbers [7];
                PlcDataResponseDto.timestamp := 0;
                PlcDataResponseDto.error := None |}).
Proof.
  assert (Hrun : PlcController.writeData "temp"
                   {| WriteBody.values := Some (VNumbers [7]); WriteBody.value := None |}
                   (run Sim.policy Sim.fresh [EvRegister Sim.temp])
                 = ((PlcController.writeData "temp"
                       {| WriteBody.values := Some (VNumbers [7]);
                          WriteBody.value := None |}
                       (run Sim.policy Sim.fresh [EvRegister Sim.temp])).1,
                    Replied ("Data written to PLC and saved to DB for temp",
                             {| PlcDataResponseDto.value := VNumbers [7];
                                PlcDataResponseDto.timestamp := 0;
                                PlcDataResponseDto.error := None |})))
    by (vm_compute; reflexivity).
  assert (Hlive : intervals (run Sim.policy Sim.fresh [EvRegister Sim.temp]) = ∅)
    by (vm_compute; reflexivity).
  assert (Hnone : no_timer_for "temp" (run Sim.policy Sim.fresh [EvRegister Sim.temp])).
  { intros timer dataPoint Htimer. rewrite Hlive, lookup_empty in Htimer. discriminate. }
  apply (controller_read_after_write Sim.policy _ _ _ _ _ _ _ Hrun Hnone).
  repeat constructor.
Defined.
